(** * services/ddclient/ddclient.go: the dynamic-DNS updater

    A shallow embedding of the Go package [ddclient] and the properties of
    its reconciliation loop.  The package talks to the outside world only
    through net/http, net, logging, time and context; those collaborators
    are an environment [Env] whose answers may depend on everything that
    happened before, and every call made to them is recorded, in order, in
    a trace.  *)

From Stdlib Require Import String Ascii List ZArith Lia Bool.
Import ListNotations.
Open Scope string_scope.
Open Scope list_scope.

(** ** The fragment of Go the package relies on *)

(** Go strings are byte strings, as are Rocq's. *)
Infix "+s+" := String.append (at level 60, right associativity).

(** [error] values.  [io_EOF] is the sentinel [io.EOF]; the package compares
    errors with it by identity ([err != io.EOF]).  Every other error is
    known only by its message. *)
Inductive error : Type :=
| io_EOF
| errors_New (msg : string).

Definition is_EOF (e : error) : bool :=
  match e with
  | io_EOF => true
  | errors_New _ => false
  end.

(** A Go slice [[]string] is either [nil] ([None]) or holds elements;
    [range] over a nil slice runs zero iterations. *)
Definition slice (A : Type) : Type := option (list A).

Definition range {A : Type} (s : slice A) : list A :=
  match s with
  | None => []
  | Some l => l
  end.

(** A call that yields [(value, nil)] or [(nil, err)]. *)
Inductive result (A : Type) : Type :=
| Ok (a : A)
| Fail (e : error).
Arguments Ok {A} a.
Arguments Fail {A} e.

(** *** strings.TrimSpace *)

Definition bytes (l : list nat) : list ascii := map ascii_of_nat l.

(** The UTF-8 encodings of the runes for which [unicode.IsSpace] holds:
    tab, LF, VT, FF, CR, space, U+0085, U+00A0, U+1680, U+2000..U+200A,
    U+2028, U+2029, U+202F, U+205F and U+3000.  A decoder yields a rune
    only from its shortest encoding, and yields U+FFFD (not a space) on
    malformed input, so the string starts (ends) with a space rune exactly
    when it starts (ends) with one of these byte sequences. *)
Definition space_runes : list (list ascii) :=
  map bytes
    [ [9]; [10]; [11]; [12]; [13]; [32];
      [194; 133]; [194; 160];
      [225; 154; 128];
      [226; 128; 128]; [226; 128; 129]; [226; 128; 130]; [226; 128; 131];
      [226; 128; 132]; [226; 128; 133]; [226; 128; 134]; [226; 128; 135];
      [226; 128; 136]; [226; 128; 137]; [226; 128; 138];
      [226; 128; 168]; [226; 128; 169]; [226; 128; 175];
      [226; 129; 159];
      [227; 128; 128] ].

(** [strip_prefix p s] is the rest of [s] after the prefix [p], if any. *)
Fixpoint strip_prefix (p s : list ascii) : option (list ascii) :=
  match p with
  | [] => Some s
  | c :: p' =>
      match s with
      | [] => None
      | d :: s' => if Ascii.eqb c d then strip_prefix p' s' else None
      end
  end.

Fixpoint strip_any (ps : list (list ascii)) (s : list ascii)
  : option (list ascii) :=
  match ps with
  | [] => None
  | p :: ps' =>
      match strip_prefix p s with
      | Some r => Some r
      | None => strip_any ps' s
      end
  end.

(** Drops leading runes of [ps]; every rune is at least one byte long, so
    [length s] rounds are enough. *)
Fixpoint trim_left_n (ps : list (list ascii)) (n : nat) (s : list ascii)
  : list ascii :=
  match n with
  | O => s
  | S n' =>
      match strip_any ps s with
      | Some r => trim_left_n ps n' r
      | None => s
      end
  end.

Definition trim_left (ps : list (list ascii)) (s : list ascii) : list ascii :=
  trim_left_n ps (length s) s.

Definition trim_right (ps : list (list ascii)) (s : list ascii) : list ascii :=
  rev (trim_left (map (@rev ascii) ps) (rev s)).

Definition TrimSpace (s : string) : string :=
  string_of_list_ascii
    (trim_right space_runes (trim_left space_runes (list_ascii_of_string s))).

(** What trimming is about: a run of space runes, and strings that start
    or end with one. *)
Inductive run_of (ps : list (list ascii)) : list ascii -> Prop :=
| run_nil : run_of ps []
| run_cons (p s : list ascii) : In p ps -> run_of ps s -> run_of ps (p ++ s).

Definition starts_with (ps : list (list ascii)) (s : list ascii) : Prop :=
  exists p r, In p ps /\ s = p ++ r.

Definition ends_with (ps : list (list ascii)) (s : list ascii) : Prop :=
  exists p r, In p ps /\ s = r ++ p.

(** *** fmt.Sprintf, for the verb [%v] applied to string operands *)

Fixpoint join (sep : string) (l : list string) : string :=
  match l with
  | [] => ""
  | [a] => a
  | a :: l' => a +s+ sep +s+ join sep l'
  end.

(** Each [%v] is replaced by the next operand, printed as it is; a verb
    without operand prints [%!v(MISSING)], operands left over are reported
    after the text. *)
Fixpoint Sprintf (format : string) (args : list string) : string :=
  match format with
  | EmptyString =>
      match args with
      | [] => ""
      | _ :: _ =>
          "%!(EXTRA " +s+ join ", " (map (fun a => "string=" +s+ a) args) +s+ ")"
      end
  | String c rest =>
      if Ascii.eqb c "%"%char then
        match rest with
        | String c' rest' =>
            if Ascii.eqb c' "v"%char then
              match args with
              | a :: args' => a +s+ Sprintf rest' args'
              | [] => "%!v(MISSING)" +s+ Sprintf rest' []
              end
            else String c (Sprintf rest args)
        | EmptyString => "%!(NOVERB)"
        end
      else String c (Sprintf rest args)
  end.

(** *** time.Duration *)

(** Conversion to a signed 64-bit integer, and multiplication in it. *)
Definition int64 (z : Z) : Z := (z + 2 ^ 63) mod 2 ^ 64 - 2 ^ 63.

Definition Duration (x : Z) : Z := int64 x.

Definition time_Second : Z := 1000000000.

Definition mul_int64 (a b : Z) : Z := int64 (a * b).

(** ** Configuration *)

(** Modelled from the spec: the generated protobuf package [config_proto]
    is not part of the sources.  The fields are the ones the package reads;
    message-typed fields are pointers and may be nil ([None]), string
    fields are empty when unset, and the update frequency is an integer
    count of seconds (its conversion to [time.Duration] is written out in
    [update_wait]). *)
Record DynDNSConfig : Type := {
  DdnsUsername : string;
  DdnsPassword : string;
  Frequency : Z;
  DnsServer : string;
  CheckipUrl : string
}.

Record FrontendConfig : Type := {
  Hostname : string;
  DynDns : option DynDNSConfig
}.

Record Config : Type := {
  Frontend : option FrontendConfig
}.

(** [var ddns_service = "domains.google.com"] *)
Definition ddns_service : string := "domains.google.com".

(** [type DynDNSService struct].  [config_obj] is stored at construction. *)
Record DynDNSService : Type := {
  config_obj : Config;
  external_ip_url : string;
  dns_server : string
}.

(** ** The environment and the trace *)

(** An HTTP request as [UpdateDDNSRecord] builds it.  [BasicAuth] is the
    pair given to [SetBasicAuth], which net/http encodes into the
    Authorization header. *)
Record Request : Type := {
  Method : string;
  URL : string;
  Header : list (string * string);
  BasicAuth : option (string * string)
}.

(** [Header.Set]: replaces the values of the key. *)
Definition Header_Set (k v : string) (h : list (string * string))
  : list (string * string) :=
  (k, v) :: filter (fun kv => negb (String.eqb (fst kv) k)) h.

(** An HTTP response: its status code and what [ioutil.ReadAll(resp.Body)]
    yields, the bytes read and the error that ended the read, if any. *)
Record Response : Type := {
  StatusCode : Z;
  Body : string * option error
}.

Inductive Level : Type := Info | Debug | Error.

Inductive LogArg : Type :=
| AString (s : string)
| AStrings (l : slice string)
| AError (e : error).

(** Which case of the [select] in [Start] is taken. *)
Inductive Wake : Type :=
| CtxDone
| TimerFired.

(** The calls the package makes to its collaborators. *)
Inductive Event : Type :=
| EvLog (lvl : Level) (format : string) (args : list LogArg)
| EvHttpGet (url : string)
| EvBodyClose
| EvLookupHost (server fqdn : string)
| EvNewRequest (method url : string)
| EvClientDo (req : Request)
| EvSelect (d : Z) (w : Wake)
| EvWaitGroupAdd (n : Z)
| EvWaitGroupDone.

Definition Trace : Type := list Event.

(** The calls that reach the network. *)
Definition is_network_call (e : Event) : bool :=
  match e with
  | EvHttpGet _ | EvLookupHost _ _ | EvClientDo _ => true
  | _ => false
  end.

Definition network_calls (t : Trace) : list Event := filter is_network_call t.

(** The answers of the collaborators, given the history so far.
    [env_NewRequest] is the error of [http.NewRequest(method, url, nil)],
    if any; the proxy of the transport is behind [env_Do]. *)
Record Env : Type := {
  env_Get : Trace -> string -> result Response;
  env_LookupHost : Trace -> string -> string -> slice string * option error;
  env_NewRequest : string -> string -> option error;
  env_Do : Trace -> Request -> result Response
}.

(** ** The state monad of the package: the trace is threaded through *)

Definition M (A : Type) : Type := Trace -> A * Trace.

Definition ret {A : Type} (a : A) : M A := fun t => (a, t).

Definition bind {A B : Type} (m : M A) (k : A -> M B) : M B :=
  fun t => let (a, t') := m t in k a t'.

Notation "x <- m ;; k" := (bind m (fun x => k))
  (at level 61, m at next level, right associativity).
Notation "m ;;; k" := (bind m (fun _ => k))
  (at level 61, right associativity).

Definition emit (e : Event) : M unit := fun t => (tt, t ++ [e]).

Definition logger (lvl : Level) (format : string) (args : list LogArg) : M unit :=
  emit (EvLog lvl format args).

(** ** The package *)

Section Package.

Variable env : Env.

(** [http.Get(url)] *)
Definition http_Get (url : string) : M (result Response) :=
  fun t => (env_Get env t url, t ++ [EvHttpGet url]).

(** [r.LookupHost(ctx, fqdn)] for the resolver whose [Dial] is
    [GoogleDNSDialer]: whatever network and address the resolver asks for,
    the dialer connects to [self.dns_server] over UDP. *)
Definition LookupHost (self : DynDNSService) (fqdn : string)
  : M (slice string * option error) :=
  fun t => (env_LookupHost env t (dns_server self) fqdn,
            t ++ [EvLookupHost (dns_server self) fqdn]).

(** [http.NewRequest(method, url, nil)] *)
Definition http_NewRequest (method url : string) : M (result Request) :=
  fun t =>
    (match env_NewRequest env method url with
     | Some err => Fail err
     | None => Ok {| Method := method; URL := url; Header := []; BasicAuth := None |}
     end,
     t ++ [EvNewRequest method url]).

(** [client.Do(req)] *)
Definition client_Do (req : Request) : M (result Response) :=
  fun t => (env_Do env t req, t ++ [EvClientDo req]).

Definition Header_Set_req (k v : string) (req : Request) : Request :=
  {| Method := Method req; URL := URL req;
     Header := Header_Set k v (Header req); BasicAuth := BasicAuth req |}.

Definition SetBasicAuth (user pw : string) (req : Request) : Request :=
  {| Method := Method req; URL := URL req;
     Header := Header req; BasicAuth := Some (user, pw) |}.

(** [func (self *DynDNSService) GetExternalIp() (string, error)] *)
Definition GetExternalIp (self : DynDNSService) : M (string * option error) :=
  r <- http_Get (external_ip_url self) ;;
  match r with
  | Fail err => ret ("Unable to determine external IP: %v ", Some err)
  | Ok resp =>
      let (ip, err) := Body resp in
      let result := TrimSpace ip in
      emit EvBodyClose ;;;
      match err with
      | Some e => if negb (is_EOF e) then ret (result, Some e)
                  else ret (result, None)
      | None => ret (result, None)
      end
  end.

(** [func (self *DynDNSService) GetCurrentDDNSIp(fqdn string) ([]string, error)] *)
Definition GetCurrentDDNSIp (self : DynDNSService) (fqdn : string)
  : M (slice string * option error) :=
  r <- LookupHost self fqdn ;;
  let (ips, err) := r in
  match err with
  | Some e => ret (None, Some e)
  | None => ret (ips, None)
  end.

(** [func UpdateDDNSRecord(config_obj, url, user, pw string) error] *)
Definition UpdateDDNSRecord (cfg : Config) (url user pw : string)
  : M (option error) :=
  r <- http_NewRequest "GET" url ;;
  match r with
  | Fail err => ret (Some err)
  | Ok req =>
      let req := Header_Set_req "User-Agent" "" req in
      let req := SetBasicAuth user pw req in
      r <- client_Do req ;;
      match r with
      | Fail err => ret (Some err)
      | Ok resp =>
          let (body, err) := Body resp in
          match err with
          | Some e => emit EvBodyClose ;;; ret (Some e)
          | None =>
              logger Debug "Update response: %v" [AString body] ;;;
              emit EvBodyClose ;;;
              ret None
          end
      end
  end.

(** The loop [for _, ip := range hostnameIPs { if ip == externalIP { return } }]:
    [true] when it returns from inside. *)
Fixpoint ip_published (hostnameIPs : list string) (externalIP : string) : bool :=
  match hostnameIPs with
  | [] => false
  | ip :: rest =>
      if String.eqb ip externalIP then true else ip_published rest externalIP
  end.

(** [func (self *DynDNSService) updateIP(config_obj *config_proto.Config)] *)
Definition updateIP (self : DynDNSService) (cfg : Config) : M unit :=
  match Frontend cfg with
  | None => ret tt
  | Some fe =>
  match DynDns fe with
  | None => ret tt
  | Some dd =>
      logger Info "Checking DNS with %v" [AString (external_ip_url self)] ;;;
      r <- GetExternalIp self ;;
      let (externalIP, err) := r in
      match err with
      | Some e => logger Error "Unable to get external IP: %v" [AError e]
      | None =>
          let ddns_hostname := Hostname fe in
          r <- GetCurrentDDNSIp self ddns_hostname ;;
          let (hostnameIPs, err) := r in
          match err with
          | Some e =>
              logger Error "Unable to resolve DDNS hostname IP: %v" [AError e]
          | None =>
              if ip_published (range hostnameIPs) externalIP then ret tt
              else
                logger Info "DNS UPDATE REQUIRED. External IP=%v. %v=%v."
                  [AString externalIP; AString ddns_hostname;
                   AStrings hostnameIPs] ;;;
                let reqstr :=
                  Sprintf "https://%v/nic/update?hostname=%v&myip=%v"
                    [ddns_service; ddns_hostname; externalIP] in
                logger Debug "Submitting update request to %v"
                  [AString reqstr] ;;;
                err <- UpdateDDNSRecord cfg reqstr
                         (DdnsUsername dd) (DdnsPassword dd) ;;
                match err with
                | Some e => logger Error "Failed to update: %v" [AError e]
                | None => ret tt
                end
          end
      end
  end
  end.

(** Where [Start] stands after the wake-ups it was given: it has returned,
    or it is blocked in its [select]. *)
Inductive Status : Type :=
| Returned
| Waiting.

(** The [for { select { ... } }] of [Start].  [d] is the duration given to
    [time.After]; [sched] tells, for each [select] in turn, which case
    fires first. *)
Fixpoint loop (self : DynDNSService) (cfg : Config) (d : Z)
  (sched : list Wake) (t : Trace) : Status * Trace :=
  match sched with
  | [] => (Waiting, t)
  | CtxDone :: _ => (Returned, t ++ [EvSelect d CtxDone])
  | TimerFired :: rest =>
      loop self cfg d rest (snd (updateIP self cfg (t ++ [EvSelect d TimerFired])))
  end.

(** [min_update_wait] after the test for zero. *)
Definition min_update_wait (dd : DynDNSConfig) : Z :=
  if (Frequency dd =? 0)%Z then 60%Z else Frequency dd.

(** [time.Duration(min_update_wait) * time.Second], in nanoseconds. *)
Definition update_wait (dd : DynDNSConfig) : Z :=
  mul_int64 (Duration (min_update_wait dd)) time_Second.

(** [func (self *DynDNSService) Start(ctx, config_obj)] *)
Definition Start (self : DynDNSService) (cfg : Config) (sched : list Wake)
  (t : Trace) : Status * Trace :=
  match Frontend cfg with
  | None => (Returned, t)
  | Some fe =>
  match DynDns fe with
  | None => (Returned, t)
  | Some dd =>
      let (_, t1) :=
        logger Info
          "<green>Starting</> the DynDNS service: Updating hostname %v with checkip URL %v"
          [AString (Hostname fe); AString (external_ip_url self)] t in
      let (_, t2) := updateIP self cfg t1 in
      loop self cfg (update_wait dd) sched t2
  end
  end.

(** [func StartDynDNSService(ctx, wg, config_obj) error].  Beside the error
    it yields the service whose [Start] the new goroutine runs, if one is
    spawned. *)
Definition StartDynDNSService (cfg : Config)
  : M (option error * option DynDNSService) :=
  match Frontend cfg with
  | None => ret (None, None)
  | Some fe =>
  match DynDns fe with
  | None => ret (None, None)
  | Some dd =>
      if (String.eqb (DdnsUsername dd) "" || String.eqb (Hostname fe) "")%bool
      then ret (None, None)
      else
        let result :=
          {| config_obj := cfg;
             external_ip_url := CheckipUrl dd;
             dns_server := DnsServer dd |} in
        let result :=
          if String.eqb (external_ip_url result) ""
          then {| config_obj := config_obj result;
                  external_ip_url := "https://domains.google.com/checkip";
                  dns_server := dns_server result |}
          else result in
        let result :=
          if String.eqb (dns_server result) ""
          then {| config_obj := config_obj result;
                  external_ip_url := external_ip_url result;
                  dns_server := "8.8.8.8:53" |}
          else result in
        emit (EvWaitGroupAdd 1) ;;;
        ret (None, Some result)
  end
  end.

(** The goroutine [go func() { defer wg.Done(); result.Start(ctx, config_obj) }()]. *)
Definition goroutine (result : DynDNSService) (cfg : Config)
  (sched : list Wake) (t : Trace) : Status * Trace :=
  match Start result cfg sched t with
  | (Returned, t') => (Returned, t' ++ [EvWaitGroupDone])
  | (Waiting, t') => (Waiting, t')
  end.

(** The service as a whole: the call of [StartDynDNSService], then the
    goroutine it spawned, if any, under the wake-ups [sched]. *)
Definition service (cfg : Config) (sched : list Wake) (t : Trace)
  : option error * option Status * Trace :=
  let '((err, spawned), t1) := StartDynDNSService cfg t in
  match spawned with
  | None => (err, None, t1)
  | Some result =>
      let (st, t2) := goroutine result cfg sched t1 in
      (err, Some st, t2)
  end.

End Package.

(** ** Reading traces *)

(** The requests [http.NewRequest] was asked to build, and the requests
    handed to [client.Do], in order. *)
Definition requests_built (t : Trace) : list (string * string) :=
  flat_map (fun e => match e with
                     | EvNewRequest m u => [(m, u)]
                     | _ => []
                     end) t.

Definition requests_sent (t : Trace) : list Request :=
  flat_map (fun e => match e with
                     | EvClientDo r => [r]
                     | _ => []
                     end) t.

(** The durations given to [time.After]. *)
Definition waits (t : Trace) : list Z :=
  flat_map (fun e => match e with
                     | EvSelect d _ => [d]
                     | _ => []
                     end) t.

(** The log entry [Start] opens with. *)
Definition starting (self : DynDNSService) (fe : FrontendConfig) : Event :=
  EvLog Info
    "<green>Starting</> the DynDNS service: Updating hostname %v with checkip URL %v"
    [AString (Hostname fe); AString (external_ip_url self)].

(** The log entry that opens a check. *)
Definition checking (self : DynDNSService) : Event :=
  EvLog Info "Checking DNS with %v" [AString (external_ip_url self)].

(** The checks begun: each [updateIP] that gets past its guard first logs
    that it checks. *)
Definition is_check (e : Event) : bool :=
  match e with
  | EvLog Info format _ => String.eqb format "Checking DNS with %v"
  | _ => false
  end.

Definition checks (t : Trace) : nat := length (filter is_check t).

(** The characters a textual IPv4 or IPv6 address is written with:
    hexadecimal digits, dots and colons. *)
Definition ip_address_char (c : ascii) : bool :=
  let n := nat_of_ascii c in
  ((48 <=? n) && (n <=? 57) || (97 <=? n) && (n <=? 102)
   || (65 <=? n) && (n <=? 70) || (n =? 46) || (n =? 58))%nat%bool.

Definition ip_address_chars (s : string) : bool :=
  forallb ip_address_char (list_ascii_of_string s).

(** ** A concrete environment, after the example of the specification *)

Definition LF : string := String (ascii_of_nat 10) "".

(** An environment that answers each kind of call always the same way. *)
Definition scripted_env (get : result Response)
  (lookup : slice string * option error) (newreq : option error)
  (do_ : result Response) : Env := {|
  env_Get := fun _ _ => get;
  env_LookupHost := fun _ _ _ => lookup;
  env_NewRequest := fun _ _ => newreq;
  env_Do := fun _ _ => do_
|}.

(** An environment whose resolver answers [lookup]. *)
Definition example_env_lookup (lookup : slice string * option error) : Env :=
  scripted_env
    (Ok {| StatusCode := 200; Body := ("203.0.113.9" +s+ LF, None) |})
    lookup
    None
    (Ok {| StatusCode := 200; Body := ("good 203.0.113.9", None) |}).

(** The check-IP endpoint answers ["203.0.113.9\n"], the name resolves to
    [203.0.113.5], requests are built and accepted. *)
Definition example_env : Env :=
  example_env_lookup (Some ["203.0.113.5"], None).

(** The same, once the record is up to date (two addresses published). *)
Definition example_env_published : Env :=
  example_env_lookup (Some ["203.0.113.5"; "203.0.113.9"], None).

Definition example_config (user pw : string) (freq : Z) : Config := {|
  Frontend := Some {|
    Hostname := "vr.example.com";
    DynDns := Some {| DdnsUsername := user; DdnsPassword := pw;
                      Frequency := freq; DnsServer := ""; CheckipUrl := "" |}
  |}
|}.

Definition example_service : DynDNSService := {|
  config_obj := example_config "user" "secret" 0;
  external_ip_url := "https://domains.google.com/checkip";
  dns_server := "8.8.8.8:53"
|}.

(** Environments whose bodies end with an error after some bytes: the
    end-of-stream sentinel, or another error. *)
Definition example_env_read (e : error) : Env :=
  scripted_env
    (Ok {| StatusCode := 200; Body := ("  203.0.113.9" +s+ LF, Some e) |})
    (Some ["203.0.113.5"], None)
    None
    (Ok {| StatusCode := 500; Body := ("badauth", Some e) |}).

(** The provider rejects the update with a 401 and a readable body. *)
Definition example_env_rejected : Env :=
  scripted_env
    (Ok {| StatusCode := 200; Body := ("203.0.113.9" +s+ LF, None) |})
    (Some ["203.0.113.5"], None)
    None
    (Ok {| StatusCode := 401; Body := ("badauth", None) |}).

(** The provider at work: the name resolves to the old address until an
    update request has been sent, and to the new one from then on. *)
Definition example_env_provider : Env := {|
  env_Get := fun _ _ =>
    Ok {| StatusCode := 200; Body := ("203.0.113.9" +s+ LF, None) |};
  env_LookupHost := fun t _ _ =>
    match requests_sent t with
    | [] => (Some ["203.0.113.5"], None)
    | _ :: _ => (Some ["203.0.113.9"], None)
    end;
  env_NewRequest := fun _ _ => None;
  env_Do := fun _ _ =>
    Ok {| StatusCode := 200; Body := ("good 203.0.113.9", None) |}
|}.

(** An environment in which every call fails. *)
Definition failing_env : Env :=
  scripted_env
    (Fail (errors_New "dial tcp: i/o timeout"))
    (None, Some (errors_New "lookup vr.example.com: no such host"))
    (Some (errors_New "net/url: invalid control character in URL"))
    (Fail (errors_New "dial tcp: i/o timeout")).

(** ** The rest of the package, and more readings of the trace *)

(** [func (self *DynDNSService) GoogleDNSDialer(ctx, network, address)]:
    the network and the address it hands to [d.DialContext]. *)
Definition GoogleDNSDialer (self : DynDNSService) (network address : string)
  : string * string :=
  ("udp", dns_server self).


(** The response bodies closed. *)
Definition closes (t : Trace) : nat :=
  length (filter (fun e => match e with
                           | EvBodyClose => true
                           | _ => false
                           end) t).

(** The counter of the WaitGroup, relative to its value before the trace:
    [Add(n)] adds [n], [Done()] subtracts one. *)
Fixpoint wg_counter (t : Trace) : Z :=
  match t with
  | [] => 0
  | EvWaitGroupAdd n :: t' => n + wg_counter t'
  | EvWaitGroupDone :: t' => wg_counter t' - 1
  | _ :: t' => wg_counter t'
  end.

(** The update request for the address [ip]. *)
Definition update_request (fe : FrontendConfig) (dd : DynDNSConfig)
  (ip : string) : Request :=
  {| Method := "GET";
     URL := "https://domains.google.com/nic/update?hostname="
            +s+ Hostname fe +s+ "&myip=" +s+ ip;
     Header := [("User-Agent", "")];
     BasicAuth := Some (DdnsUsername dd, DdnsPassword dd) |}.

(** The three places a service talks to: its check-IP URL, its DNS server
    (about the configured hostname), and the update URL of the provider. *)
Definition expected_call (self : DynDNSService) (fe : FrontendConfig)
  (dd : DynDNSConfig) (e : Event) : Prop :=
  match e with
  | EvHttpGet url => url = external_ip_url self
  | EvLookupHost server fqdn =>
      (forall network address,
          GoogleDNSDialer self network address = ("udp", server)) /\
      fqdn = Hostname fe
  | EvClientDo req => exists ip, req = update_request fe dd ip
  | _ => True
  end.

(** * Properties *)

Ltac run := unfold logger, bind, ret, emit; cbv beta iota.

(** ** Startup guard *)

(** C1 (as amended). When the frontend section or its DynDns section is
    missing, or the hostname or the update username is empty,
    [StartDynDNSService] returns nil, spawns no goroutine and nothing at
    all is called: the trace is unchanged, so no network call is made. *)
Theorem StartDynDNSService_guard (env : Env) (cfg : Config)
  (sched : list Wake) (t : Trace) :
  match Frontend cfg with
  | None => True
  | Some fe =>
      Hostname fe = "" \/
      match DynDns fe with
      | None => True
      | Some dd => DdnsUsername dd = ""
      end
  end ->
  StartDynDNSService cfg t = ((None, None), t) /\
  service env cfg sched t = (None, None, t) /\
  network_calls (snd (service env cfg sched t)) = network_calls t.
Proof.
  intros H.
  assert (E : StartDynDNSService cfg t = ((None, None), t)).
  { unfold StartDynDNSService.
    destruct (Frontend cfg) as [fe|]; [|reflexivity].
    destruct (DynDns fe) as [dd|]; [|reflexivity].
    destruct H as [H|H]; rewrite H.
    - rewrite orb_true_r. reflexivity.
    - reflexivity. }
  assert (E' : service env cfg sched t = (None, None, t)).
  { unfold service. rewrite E. reflexivity. }
  rewrite E'. auto.
Qed.

Lemma StartDynDNSService_guard_witness :
  service example_env (example_config "" "secret" 0) [TimerFired; CtxDone] []
  = (None, None, []).
Proof.
  apply (StartDynDNSService_guard example_env (example_config "" "secret" 0)
           [TimerFired; CtxDone] []).
  right. reflexivity.
Defined.

(** C1, refuted as stated: with hostname and username set and the password
    empty, the service is started and calls the network. *)
Lemma StartDynDNSService_empty_password :
  let cfg := example_config "user" "" 0 in
  (exists fe dd, Frontend cfg = Some fe /\ DynDns fe = Some dd /\
                 Hostname fe = "vr.example.com" /\
                 DdnsUsername dd = "user" /\ DdnsPassword dd = "") /\
  StartDynDNSService cfg []
  = ((None, Some {| config_obj := cfg;
                    external_ip_url := "https://domains.google.com/checkip";
                    dns_server := "8.8.8.8:53" |}),
     [EvWaitGroupAdd 1]) /\
  network_calls (snd (service example_env cfg [] []))
  = [EvHttpGet "https://domains.google.com/checkip";
     EvLookupHost "8.8.8.8:53" "vr.example.com";
     EvClientDo
       {| Method := "GET";
          URL := "https://domains.google.com/nic/update?hostname=vr.example.com&myip=203.0.113.9";
          Header := [("User-Agent", "")];
          BasicAuth := Some ("user", "") |}].
Proof.
  cbv zeta. split; [|split].
  - eexists. eexists. repeat split.
  - reflexivity.
  - vm_compute. reflexivity.
Qed.

(** ** How each function runs *)

Ltac norm_trace := repeat rewrite <- app_assoc; cbn [app].

Lemma GetExternalIp_run (env : Env) (self : DynDNSService) (t : Trace) :
  GetExternalIp env self t =
  match env_Get env t (external_ip_url self) with
  | Fail err =>
      (("Unable to determine external IP: %v ", Some err),
       t ++ [EvHttpGet (external_ip_url self)])
  | Ok resp =>
      ((TrimSpace (fst (Body resp)),
        match snd (Body resp) with
        | Some e => if is_EOF e then None else Some e
        | None => None
        end),
       t ++ [EvHttpGet (external_ip_url self); EvBodyClose])
  end.
Proof.
  unfold GetExternalIp, http_Get. run.
  destruct (env_Get env t (external_ip_url self)) as [resp|err]; [|reflexivity].
  destruct (Body resp) as [ip [e|]]; cbn; norm_trace; [|reflexivity].
  destruct e; reflexivity.
Qed.

Lemma GetCurrentDDNSIp_run (env : Env) (self : DynDNSService) (fqdn : string)
  (t : Trace) :
  GetCurrentDDNSIp env self fqdn t =
  (match env_LookupHost env t (dns_server self) fqdn with
   | (_, Some e) => (None, Some e)
   | (ips, None) => (ips, None)
   end,
   t ++ [EvLookupHost (dns_server self) fqdn]).
Proof.
  unfold GetCurrentDDNSIp, LookupHost. run.
  destruct (env_LookupHost env t (dns_server self) fqdn) as [ips [e|]];
    reflexivity.
Qed.

Lemma UpdateDDNSRecord_run (env : Env) (cfg : Config) (url user pw : string)
  (t : Trace) :
  let req := {| Method := "GET"; URL := url;
                Header := [("User-Agent", "")];
                BasicAuth := Some (user, pw) |} in
  UpdateDDNSRecord env cfg url user pw t =
  match env_NewRequest env "GET" url with
  | Some err => (Some err, t ++ [EvNewRequest "GET" url])
  | None =>
      match env_Do env (t ++ [EvNewRequest "GET" url]) req with
      | Fail err => (Some err, t ++ [EvNewRequest "GET" url; EvClientDo req])
      | Ok resp =>
          match snd (Body resp) with
          | Some e =>
              (Some e,
               t ++ [EvNewRequest "GET" url; EvClientDo req; EvBodyClose])
          | None =>
              (None,
               t ++ [EvNewRequest "GET" url; EvClientDo req;
                     EvLog Debug "Update response: %v"
                       [AString (fst (Body resp))];
                     EvBodyClose])
          end
      end
  end.
Proof.
  cbv zeta. unfold UpdateDDNSRecord, http_NewRequest, client_Do. run.
  destruct (env_NewRequest env "GET" url) as [err|]; [reflexivity|].
  cbn.
  destruct (env_Do env _ _) as [resp|err]; norm_trace; [|reflexivity].
  destruct (Body resp) as [body [e|]]; cbn; norm_trace; reflexivity.
Qed.

Lemma ip_published_In (l : list string) (ip : string) :
  ip_published l ip = true <-> In ip l.
Proof.
  induction l as [|x l IH]; cbn.
  - split; [discriminate|tauto].
  - destruct (String.eqb_spec x ip) as [E|N].
    + split; auto.
    + rewrite IH. split; [auto|]. intros [E|H]; [contradiction|exact H].
Qed.


Lemma append_empty_r (s : string) : s +s+ "" = s.
Proof.
  induction s as [|c s IH]; cbn; [reflexivity|]. rewrite IH. reflexivity.
Qed.

Lemma reqstr_eq (hostname ip : string) :
  Sprintf "https://%v/nic/update?hostname=%v&myip=%v"
    [ddns_service; hostname; ip]
  = "https://domains.google.com/nic/update?hostname=" +s+ hostname
    +s+ "&myip=" +s+ ip.
Proof.
  cbn. rewrite append_empty_r. reflexivity.
Qed.

(** The trace of a check, by what the environment answers. *)
Lemma updateIP_run (env : Env) (self : DynDNSService) (cfg : Config)
  (fe : FrontendConfig) (dd : DynDNSConfig) (t : Trace) :
  Frontend cfg = Some fe -> DynDns fe = Some dd ->
  updateIP env self cfg t =
  let (r, t2) := GetExternalIp env self (t ++ [checking self]) in
  match r with
  | (_, Some e) =>
      (tt, t2 ++ [EvLog Error "Unable to get external IP: %v" [AError e]])
  | (externalIP, None) =>
      let (r', t3) := GetCurrentDDNSIp env self (Hostname fe) t2 in
      match r' with
      | (_, Some e) =>
          (tt, t3 ++ [EvLog Error "Unable to resolve DDNS hostname IP: %v"
                        [AError e]])
      | (hostnameIPs, None) =>
          if ip_published (range hostnameIPs) externalIP then (tt, t3)
          else
            let reqstr :=
              "https://domains.google.com/nic/update?hostname="
              +s+ Hostname fe +s+ "&myip=" +s+ externalIP in
            let (err, t4) :=
              UpdateDDNSRecord env cfg reqstr (DdnsUsername dd) (DdnsPassword dd)
                (t3 ++ [EvLog Info "DNS UPDATE REQUIRED. External IP=%v. %v=%v."
                          [AString externalIP; AString (Hostname fe);
                           AStrings hostnameIPs];
                        EvLog Debug "Submitting update request to %v"
                          [AString reqstr]]) in
            match err with
            | Some e => (tt, t4 ++ [EvLog Error "Failed to update: %v" [AError e]])
            | None => (tt, t4)
            end
      end
  end.
Proof.
  intros Hfe Hdd. unfold updateIP, checking. rewrite Hfe, Hdd. run.
  destruct (GetExternalIp env self _) as [[externalIP [e|]] t2]; [reflexivity|].
  destruct (GetCurrentDDNSIp env self (Hostname fe) t2)
    as [[hostnameIPs [e|]] t3]; [reflexivity|].
  destruct (ip_published (range hostnameIPs) externalIP); [reflexivity|].
  rewrite reqstr_eq. norm_trace.
  destruct (UpdateDDNSRecord env cfg _ _ _ _) as [[e|] t4]; reflexivity.
Qed.

(** ** One check *)

(** C3. In a check whose discovered IP equals an element of the resolved
    list, nothing follows the resolution: no request is built or sent, no
    log entry is written, and [updateIP] returns. *)
Theorem updateIP_published_skips (env : Env) (self : DynDNSService)
  (cfg : Config) (fe : FrontendConfig) (dd : DynDNSConfig) (t t2 t3 : Trace)
  (externalIP : string) (hostnameIPs : slice string) :
  Frontend cfg = Some fe -> DynDns fe = Some dd ->
  GetExternalIp env self (t ++ [checking self]) = ((externalIP, None), t2) ->
  GetCurrentDDNSIp env self (Hostname fe) t2 = ((hostnameIPs, None), t3) ->
  In externalIP (range hostnameIPs) ->
  updateIP env self cfg t = (tt, t3) /\
  t3 = t ++ [checking self; EvHttpGet (external_ip_url self); EvBodyClose;
             EvLookupHost (dns_server self) (Hostname fe)] /\
  requests_built t3 = requests_built t /\
  requests_sent t3 = requests_sent t.
Proof.
  intros Hfe Hdd Hip Hips Hin.
  assert (Ht3 : t3 = t ++ [checking self; EvHttpGet (external_ip_url self);
                           EvBodyClose;
                           EvLookupHost (dns_server self) (Hostname fe)]).
  { rewrite GetCurrentDDNSIp_run in Hips. inversion Hips; subst t3.
    rewrite GetExternalIp_run in Hip.
    destruct (env_Get env _ _) as [resp|err]; inversion Hip; subst t2.
    norm_trace. reflexivity. }
  split; [|split; [exact Ht3|]].
  - rewrite (updateIP_run env self cfg fe dd t Hfe Hdd), Hip, Hips.
    apply ip_published_In in Hin. rewrite Hin. reflexivity.
  - rewrite Ht3. unfold requests_built, requests_sent.
    rewrite !flat_map_app. cbn. rewrite !app_nil_r. auto.
Qed.

Lemma updateIP_published_skips_witness :
  updateIP example_env_published example_service
    (example_config "user" "secret" 0) []
  = (tt, [checking example_service;
          EvHttpGet "https://domains.google.com/checkip"; EvBodyClose;
          EvLookupHost "8.8.8.8:53" "vr.example.com"]).
Proof.
  refine (proj1 (updateIP_published_skips example_env_published example_service
                   (example_config "user" "secret" 0) _ _ [] _ _
                   "203.0.113.9" (Some ["203.0.113.5"; "203.0.113.9"])
                   eq_refl eq_refl _ _ _)).
  - vm_compute. reflexivity.
  - vm_compute. reflexivity.
  - simpl. auto.
Defined.



(** ** The loop *)

(** A check writes its opening log entry, then events that are neither
    another opening entry nor a wait. *)
Lemma updateIP_delta (env : Env) (self : DynDNSService) (cfg : Config)
  (fe : FrontendConfig) (dd : DynDNSConfig) (t : Trace) :
  Frontend cfg = Some fe -> DynDns fe = Some dd ->
  exists delta,
    updateIP env self cfg t = (tt, t ++ checking self :: delta) /\
    filter is_check delta = [] /\ waits delta = [].
Proof.
  intros Hfe Hdd.
  rewrite (updateIP_run env self cfg fe dd t Hfe Hdd).
  rewrite GetExternalIp_run.
  destruct (env_Get env _ _) as [resp|err].
  2:{ eexists. norm_trace. split; [reflexivity|]. split; reflexivity. }
  destruct (snd (Body resp)) as [e|].
  1: destruct (is_EOF e).
  2:{ eexists. norm_trace. split; [reflexivity|]. split; reflexivity. }
  all: rewrite GetCurrentDDNSIp_run;
    destruct (env_LookupHost env _ _ _) as [ips [e'|]];
    [eexists; norm_trace; split; [reflexivity|]; split; reflexivity|];
    destruct (ip_published (range ips) _);
    [eexists; norm_trace; split; [reflexivity|]; split; reflexivity|];
    cbv zeta; rewrite UpdateDDNSRecord_run;
    destruct (env_NewRequest env _ _) as [e1|];
    [eexists; norm_trace; split; [reflexivity|]; split; reflexivity|];
    destruct (env_Do env _ _) as [resp'|e2];
    [destruct (snd (Body resp')) as [e3|]|];
    eexists; norm_trace; (split; [reflexivity|]); split; reflexivity.
Qed.

Lemma checks_app (t1 t2 : Trace) : checks (t1 ++ t2) = checks t1 + checks t2.
Proof. unfold checks. rewrite filter_app, length_app. reflexivity. Qed.

Lemma waits_app (t1 t2 : Trace) : waits (t1 ++ t2) = waits t1 ++ waits t2.
Proof. unfold waits. apply flat_map_app. Qed.

Lemma network_calls_app (t1 t2 : Trace) :
  network_calls (t1 ++ t2) = network_calls t1 ++ network_calls t2.
Proof. unfold network_calls. apply filter_app. Qed.

Section Loop.

Variable env : Env.
Variable self : DynDNSService.
Variable cfg : Config.
Variable fe : FrontendConfig.
Variable dd : DynDNSConfig.
Hypothesis Hfe : Frontend cfg = Some fe.
Hypothesis Hdd : DynDns fe = Some dd.

(** One check: one more opening entry, no wait. *)
Lemma updateIP_counts (t : Trace) :
  checks (snd (updateIP env self cfg t)) = checks t + 1 /\
  waits (snd (updateIP env self cfg t)) = waits t.
Proof.
  destruct (updateIP_delta env self cfg fe dd t Hfe Hdd) as (delta & E & Hc & Hw).
  assert (Hc' : checks delta = 0) by (unfold checks; rewrite Hc; reflexivity).
  rewrite E. cbn [snd].
  change (checking self :: delta) with ([checking self] ++ delta).
  rewrite !checks_app, !waits_app, Hc', Hw. cbn.
  rewrite app_nil_r. split; [lia|reflexivity].
Qed.

(** While only the timer fires, the loop keeps waiting and checking. *)
Lemma loop_timer (d : Z) (n : nat) (t : Trace) :
  fst (loop env self cfg d (repeat TimerFired n) t) = Waiting /\
  checks (snd (loop env self cfg d (repeat TimerFired n) t)) = checks t + n /\
  waits (snd (loop env self cfg d (repeat TimerFired n) t))
  = waits t ++ repeat d n.
Proof.
  revert t. induction n as [|n IH]; intros t; cbn [repeat loop].
  - cbn. rewrite app_nil_r. auto.
  - destruct (IH (snd (updateIP env self cfg (t ++ [EvSelect d TimerFired]))))
      as (IH1 & IH2 & IH3).
    destruct (updateIP_counts (t ++ [EvSelect d TimerFired])) as [Hc Hw].
    rewrite IH1, IH2, IH3, Hc, Hw, checks_app, waits_app. cbn.
    rewrite <- app_assoc. cbn. split; [reflexivity|]. split; [lia|reflexivity].
Qed.

(** Cancellation after [n] timer wake-ups: the loop returns, and adds to
    the trace at that wait point only the [select] itself. *)
Lemma loop_cancel (d : Z) (n : nat) (rest : list Wake) (t : Trace) :
  loop env self cfg d (repeat TimerFired n ++ CtxDone :: rest) t
  = (Returned,
     snd (loop env self cfg d (repeat TimerFired n) t) ++ [EvSelect d CtxDone]).
Proof.
  revert t. induction n as [|n IH]; intros t; cbn [repeat loop app].
  - reflexivity.
  - apply IH.
Qed.

Lemma loop_app (d : Z) (n : nat) (sched : list Wake) (t : Trace) :
  loop env self cfg d (repeat TimerFired n ++ sched) t
  = loop env self cfg d sched (snd (loop env self cfg d (repeat TimerFired n) t)).
Proof.
  revert t. induction n as [|n IH]; intros t; cbn [repeat loop app].
  - reflexivity.
  - apply IH.
Qed.

(** Every schedule is timer wake-ups alone, or some of them and then a
    cancellation. *)
Lemma sched_shape (sched : list Wake) :
  (~ In CtxDone sched /\ sched = repeat TimerFired (length sched)) \/
  (exists n rest, sched = repeat TimerFired n ++ CtxDone :: rest).
Proof.
  induction sched as [|w sched IH].
  - left. split; [tauto|reflexivity].
  - destruct w.
    + right. exists O, sched. reflexivity.
    + destruct IH as [[Hn E]|(n & rest & E)].
      * left. split.
        -- intros [H|H]; [discriminate|tauto].
        -- cbn. f_equal. exact E.
      * right. exists (S n), rest. cbn. f_equal. exact E.
Qed.

Lemma loop_returns_iff (d : Z) (sched : list Wake) (t : Trace) :
  fst (loop env self cfg d sched t) = Returned <-> In CtxDone sched.
Proof.
  destruct (sched_shape sched) as [[Hn E]|(n & rest & E)].
  - rewrite E at 1. destruct (loop_timer d (length sched) t) as [H _].
    rewrite H. split; [discriminate|tauto].
  - rewrite E, loop_cancel. cbn. split; [intros _|reflexivity].
    apply in_or_app. right. left. reflexivity.
Qed.

Lemma Start_unfold (sched : list Wake) (t : Trace) :
  Start env self cfg sched t =
  loop env self cfg (update_wait dd) sched
    (snd (updateIP env self cfg
            (t ++ [EvLog Info
                     "<green>Starting</> the DynDNS service: Updating hostname %v with checkip URL %v"
                     [AString (Hostname fe); AString (external_ip_url self)]]))).
Proof.
  unfold Start. rewrite Hfe, Hdd. unfold logger, emit.
  destruct (updateIP env self cfg _) as [u t2]. reflexivity.
Qed.

(** The state of [Start] at its wait point after [n] timer wake-ups. *)
Lemma Start_timer (n : nat) (t : Trace) :
  fst (Start env self cfg (repeat TimerFired n) t) = Waiting /\
  checks (snd (Start env self cfg (repeat TimerFired n) t)) = checks t + 1 + n /\
  waits (snd (Start env self cfg (repeat TimerFired n) t))
  = waits t ++ repeat (update_wait dd) n.
Proof.
  rewrite Start_unfold.
  destruct (loop_timer (update_wait dd) n
              (snd (updateIP env self cfg
                 (t ++ [EvLog Info
                     "<green>Starting</> the DynDNS service: Updating hostname %v with checkip URL %v"
                     [AString (Hostname fe); AString (external_ip_url self)]]))))
    as (H1 & H2 & H3).
  rewrite H1, H2, H3.
  destruct (updateIP_counts
              (t ++ [EvLog Info
                     "<green>Starting</> the DynDNS service: Updating hostname %v with checkip URL %v"
                     [AString (Hostname fe); AString (external_ip_url self)]]))
    as [Hc Hw].
  rewrite Hc, Hw, checks_app, waits_app. cbn. rewrite app_nil_r.
  split; [reflexivity|]. split; [lia|reflexivity].
Qed.

Lemma Start_cancel (n : nat) (rest : list Wake) (t : Trace) :
  Start env self cfg (repeat TimerFired n ++ CtxDone :: rest) t
  = (Returned,
     snd (Start env self cfg (repeat TimerFired n) t)
     ++ [EvSelect (update_wait dd) CtxDone]).
Proof. rewrite !Start_unfold. apply loop_cancel. Qed.

Lemma Start_tick (n : nat) (t : Trace) :
  snd (Start env self cfg (repeat TimerFired (S n)) t)
  = snd (updateIP env self cfg
           (snd (Start env self cfg (repeat TimerFired n) t)
            ++ [EvSelect (update_wait dd) TimerFired])).
Proof.
  rewrite !Start_unfold.
  change (repeat TimerFired (S n)) with (TimerFired :: repeat TimerFired n).
  rewrite repeat_cons, loop_app. cbn [loop]. reflexivity.
Qed.

Lemma Start_returns_iff (sched : list Wake) (t : Trace) :
  fst (Start env self cfg sched t) = Returned <-> In CtxDone sched.
Proof. rewrite Start_unfold. apply loop_returns_iff. Qed.

Lemma Start_waits (sched : list Wake) (t : Trace) :
  exists k, waits (snd (Start env self cfg sched t))
            = waits t ++ repeat (update_wait dd) k.
Proof.
  destruct (sched_shape sched) as [[Hn E]|(n & rest & E)]; rewrite E.
  - exists (length sched). apply Start_timer.
  - exists (S n). rewrite Start_cancel. cbn [snd]. rewrite waits_app.
    destruct (Start_timer n t) as (_ & _ & H). rewrite H, <- app_assoc.
    cbn. rewrite <- repeat_cons. reflexivity.
Qed.

End Loop.

(** ** Timing *)

Lemma update_wait_seconds (dd : DynDNSConfig) :
  (0 <= min_update_wait dd <= 9223372036)%Z ->
  update_wait dd = (min_update_wait dd * time_Second)%Z.
Proof.
  intros H. unfold update_wait, mul_int64, Duration, int64, time_Second.
  rewrite (Z.mod_small (min_update_wait dd + 2 ^ 63)) by lia.
  replace (min_update_wait dd + 2 ^ 63 - 2 ^ 63)%Z with (min_update_wait dd)
    by lia.
  rewrite Z.mod_small by lia. lia.
Qed.

(** C4 (as amended). Every wait of the loop is [update_wait]: 60 seconds
    when the configured frequency is 0, and the configured number of
    seconds when it is not (as long as that many nanoseconds fit a
    Duration).  So the wait is at least 60 seconds when the frequency is 0
    or at least 60; a frequency from 1 to 59 is used as it is. *)
Theorem update_wait_default (env : Env) (self : DynDNSService) (cfg : Config)
  (fe : FrontendConfig) (dd : DynDNSConfig) (sched : list Wake) (t : Trace) :
  Frontend cfg = Some fe -> DynDns fe = Some dd ->
  (exists k, waits (snd (Start env self cfg sched t))
             = waits t ++ repeat (update_wait dd) k) /\
  (Frequency dd = 0 -> update_wait dd = 60 * time_Second)%Z /\
  (0 < Frequency dd <= 9223372036 ->
   update_wait dd = Frequency dd * time_Second)%Z /\
  (Frequency dd = 0 \/ 60 <= Frequency dd <= 9223372036 ->
   60 * time_Second <= update_wait dd)%Z.
Proof.
  intros Hfe Hdd. split; [exact (Start_waits env self cfg fe dd Hfe Hdd sched t)|].
  assert (H0 : (Frequency dd = 0 -> update_wait dd = 60 * time_Second)%Z).
  { intros E. rewrite update_wait_seconds; unfold min_update_wait; rewrite E;
      cbn; lia. }
  assert (H1 : (0 < Frequency dd <= 9223372036 ->
                update_wait dd = Frequency dd * time_Second)%Z).
  { intros H. rewrite update_wait_seconds; unfold min_update_wait;
      destruct (Z.eqb_spec (Frequency dd) 0); lia. }
  split; [exact H0|]. split; [exact H1|].
  intros [E|H].
  - rewrite (H0 E). lia.
  - rewrite H1 by lia. unfold time_Second. lia.
Qed.

Lemma update_wait_default_witness :
  (update_wait {| DdnsUsername := "user"; DdnsPassword := "secret";
                  Frequency := 0; DnsServer := ""; CheckipUrl := "" |}
   = 60 * time_Second)%Z /\
  (60 * time_Second
   <= update_wait {| DdnsUsername := "user"; DdnsPassword := "secret";
                     Frequency := 0; DnsServer := ""; CheckipUrl := "" |})%Z.
Proof.
  pose proof (update_wait_default example_env example_service
                (example_config "user" "secret" 0) _ _ [TimerFired; CtxDone] []
                eq_refl eq_refl) as (_ & H0 & _ & H60).
  split; [exact (H0 eq_refl)|exact (H60 (or_introl eq_refl))].
Defined.

(** C4, refuted as stated: a configured frequency of 1 makes the loop wait
    one second, below the 60 seconds. *)
Lemma update_wait_one_second :
  let cfg := example_config "user" "secret" 1 in
  waits (snd (Start example_env example_service cfg [TimerFired; TimerFired] []))
  = [1 * time_Second; 1 * time_Second]%Z /\
  (1 * time_Second < 60 * time_Second)%Z.
Proof.
  cbv zeta. split; [vm_compute; reflexivity|reflexivity].
Qed.

(** C8. [Start] makes one check at once, before any wait.  After [n] timer
    wake-ups it stands at its wait point, having waited [n] times for the
    interval and made one check after each wait; a cancellation observed
    there makes it return, and adds nothing to the trace but the [select]
    that observed it, so no further network call. *)
Theorem Start_timing (env : Env) (self : DynDNSService) (cfg : Config)
  (fe : FrontendConfig) (dd : DynDNSConfig) (t : Trace) (n : nat)
  (rest : list Wake) :
  Frontend cfg = Some fe -> DynDns fe = Some dd ->
  let at_wait := snd (Start env self cfg (repeat TimerFired n) t) in
  (exists delta,
      Start env self cfg [] t
      = (Waiting, t ++ starting self fe :: checking self :: delta) /\
      checks (checking self :: delta) = 1 /\ waits delta = []) /\
  Start env self cfg (repeat TimerFired n) t = (Waiting, at_wait) /\
  waits at_wait = waits t ++ repeat (update_wait dd) n /\
  checks at_wait = checks t + 1 + n /\
  (snd (Start env self cfg (repeat TimerFired (S n)) t)
   = snd (updateIP env self cfg
            (at_wait ++ [EvSelect (update_wait dd) TimerFired])) /\
   checks (snd (Start env self cfg (repeat TimerFired (S n)) t))
   = checks at_wait + 1) /\
  Start env self cfg (repeat TimerFired n ++ CtxDone :: rest) t
  = (Returned, at_wait ++ [EvSelect (update_wait dd) CtxDone]) /\
  network_calls (at_wait ++ [EvSelect (update_wait dd) CtxDone])
  = network_calls at_wait.
Proof.
  intros Hfe Hdd at_wait.
  destruct (Start_timer env self cfg fe dd Hfe Hdd n t) as (H1 & H2 & H3).
  split; [|split; [|split; [|split; [|split; [|split]]]]].
  - rewrite (Start_unfold env self cfg fe dd Hfe Hdd). cbn [loop].
    destruct (updateIP_delta env self cfg fe dd
                (t ++ [starting self fe]) Hfe Hdd) as (delta & E & Hc & Hw).
    exists delta. fold (starting self fe). rewrite E. cbn [snd].
    rewrite <- app_assoc. cbn [app]. split; [reflexivity|]. split; [|exact Hw].
    unfold checks. cbn. rewrite Hc. reflexivity.
  - rewrite (surjective_pairing (Start env self cfg (repeat TimerFired n) t)).
    rewrite H1. reflexivity.
  - exact H3.
  - exact H2.
  - split; [exact (Start_tick env self cfg fe dd Hfe Hdd n t)|].
    destruct (Start_timer env self cfg fe dd Hfe Hdd (S n) t) as (_ & H2' & _).
    rewrite H2'. unfold at_wait. rewrite H2. lia.
  - exact (Start_cancel env self cfg fe dd Hfe Hdd n rest t).
  - rewrite network_calls_app. cbn. apply app_nil_r.
Qed.

Lemma Start_timing_witness :
  Start example_env example_service (example_config "user" "secret" 0)
    (repeat TimerFired 2 ++ [CtxDone; TimerFired]) []
  = (Returned,
     snd (Start example_env example_service (example_config "user" "secret" 0)
            (repeat TimerFired 2) [])
     ++ [EvSelect (60 * time_Second) CtxDone]).
Proof.
  exact (proj1 (proj2 (proj2 (proj2 (proj2 (proj2
           (Start_timing example_env example_service
              (example_config "user" "secret" 0) _ _ [] 2 [TimerFired]
              eq_refl eq_refl))))))).
Defined.

(** ** Errors stay inside the check *)

(** C7. A failed discovery ends the check before the resolution, a failed
    resolution ends it before any update, a failed update ends it; each
    time [updateIP] has only logged the error and returns to the loop,
    which goes on to its next wait.  [Start] returns exactly when a
    cancellation is among the wake-ups, whatever the environment answers,
    and after [n] timer wake-ups [n + 1] checks have been made. *)
Theorem cycle_errors_absorbed (env : Env) (self : DynDNSService)
  (cfg : Config) (fe : FrontendConfig) (dd : DynDNSConfig) (t : Trace) :
  Frontend cfg = Some fe -> DynDns fe = Some dd ->
  (forall ip e t2,
      GetExternalIp env self (t ++ [checking self]) = ((ip, Some e), t2) ->
      let final := t2 ++ [EvLog Error "Unable to get external IP: %v" [AError e]] in
      updateIP env self cfg t = (tt, final) /\
      network_calls final
      = network_calls t ++ [EvHttpGet (external_ip_url self)] /\
      requests_built final = requests_built t) /\
  (forall ip ips e t2 t3,
      GetExternalIp env self (t ++ [checking self]) = ((ip, None), t2) ->
      GetCurrentDDNSIp env self (Hostname fe) t2 = ((ips, Some e), t3) ->
      let final := t3 ++ [EvLog Error "Unable to resolve DDNS hostname IP: %v"
                            [AError e]] in
      updateIP env self cfg t = (tt, final) /\
      network_calls final
      = network_calls t ++ [EvHttpGet (external_ip_url self);
                            EvLookupHost (dns_server self) (Hostname fe)] /\
      requests_built final = requests_built t) /\
  (forall ip ips e t2 t3 t4,
      GetExternalIp env self (t ++ [checking self]) = ((ip, None), t2) ->
      GetCurrentDDNSIp env self (Hostname fe) t2 = ((ips, None), t3) ->
      ip_published (range ips) ip = false ->
      let reqstr := "https://domains.google.com/nic/update?hostname="
                    +s+ Hostname fe +s+ "&myip=" +s+ ip in
      UpdateDDNSRecord env cfg reqstr (DdnsUsername dd) (DdnsPassword dd)
        (t3 ++ [EvLog Info "DNS UPDATE REQUIRED. External IP=%v. %v=%v."
                  [AString ip; AString (Hostname fe); AStrings ips];
                EvLog Debug "Submitting update request to %v" [AString reqstr]])
      = (Some e, t4) ->
      updateIP env self cfg t
      = (tt, t4 ++ [EvLog Error "Failed to update: %v" [AError e]])) /\
  (forall sched,
      fst (Start env self cfg sched t) = Returned <-> In CtxDone sched) /\
  (forall n,
      fst (Start env self cfg (repeat TimerFired n) t) = Waiting /\
      checks (snd (Start env self cfg (repeat TimerFired n) t))
      = checks t + 1 + n).
Proof.
  intros Hfe Hdd.
  split; [|split; [|split; [|split]]].
  - intros ip e t2 Hip final. unfold final.
    rewrite (updateIP_run env self cfg fe dd t Hfe Hdd), Hip.
    split; [reflexivity|].
    rewrite GetExternalIp_run in Hip.
    destruct (env_Get env _ _) as [resp|err]; inversion Hip; subst t2;
      norm_trace;
      unfold requests_built; rewrite network_calls_app, flat_map_app; cbn;
      rewrite app_nil_r; auto.
  - intros ip ips e t2 t3 Hip Hips final. unfold final.
    rewrite (updateIP_run env self cfg fe dd t Hfe Hdd), Hip, Hips.
    split; [reflexivity|].
    rewrite GetCurrentDDNSIp_run in Hips. inversion Hips; subst t3.
    rewrite GetExternalIp_run in Hip.
    destruct (env_Get env _ _) as [resp|err]; inversion Hip; subst t2;
      norm_trace;
      unfold requests_built; rewrite network_calls_app, flat_map_app; cbn;
      rewrite app_nil_r; auto.
  - intros ip ips e t2 t3 t4 Hip Hips Hnot reqstr Hupd.
    rewrite (updateIP_run env self cfg fe dd t Hfe Hdd), Hip, Hips, Hnot.
    cbv zeta. fold reqstr. rewrite Hupd. reflexivity.
  - intros sched. exact (Start_returns_iff env self cfg fe dd Hfe Hdd sched t).
  - intros n.
    destruct (Start_timer env self cfg fe dd Hfe Hdd n t) as (H1 & H2 & _).
    auto.
Qed.

Lemma cycle_errors_absorbed_witness :
  updateIP failing_env example_service (example_config "user" "secret" 0) []
  = (tt, [checking example_service;
          EvHttpGet "https://domains.google.com/checkip";
          EvLog Error "Unable to get external IP: %v"
            [AError (errors_New "dial tcp: i/o timeout")]]) /\
  fst (Start failing_env example_service (example_config "user" "secret" 0)
         (repeat TimerFired 3) []) = Waiting /\
  checks (snd (Start failing_env example_service
                 (example_config "user" "secret" 0) (repeat TimerFired 3) []))
  = 4.
Proof.
  pose proof (cycle_errors_absorbed failing_env example_service
                (example_config "user" "secret" 0) _ _ [] eq_refl eq_refl)
    as (Hdisc & _ & _ & _ & Hloop).
  split.
  - exact (proj1 (Hdisc "Unable to determine external IP: %v "
                    (errors_New "dial tcp: i/o timeout")
                    [checking example_service;
                     EvHttpGet "https://domains.google.com/checkip"]
                    eq_refl)).
  - exact (Hloop 3).
Defined.

(** ** strings.TrimSpace *)

Lemma strip_prefix_Some (p s r : list ascii) :
  strip_prefix p s = Some r <-> s = p ++ r.
Proof.
  revert s. induction p as [|c p IH]; intros s; cbn.
  - split; [intros H; inversion H; reflexivity|intros H; subst; reflexivity].
  - destruct s as [|d s]; [split; discriminate|].
    destruct (Ascii.eqb_spec c d) as [E|N].
    + subst d. rewrite IH. split; [intros H; subst; reflexivity|].
      intros H. inversion H. reflexivity.
    + split; [discriminate|]. intros H. inversion H. congruence.
Qed.

Lemma strip_any_Some (ps : list (list ascii)) (s r : list ascii) :
  strip_any ps s = Some r -> exists p, In p ps /\ s = p ++ r.
Proof.
  induction ps as [|p ps IH]; cbn; [discriminate|].
  destruct (strip_prefix p s) as [r'|] eqn:E.
  - intros H. inversion H; subst r'. exists p. split; [left; reflexivity|].
    apply strip_prefix_Some. exact E.
  - intros H. destruct (IH H) as (q & Hq & Hs). exists q.
    split; [right; exact Hq|exact Hs].
Qed.

Lemma strip_any_None (ps : list (list ascii)) (s : list ascii) :
  strip_any ps s = None <-> ~ starts_with ps s.
Proof.
  induction ps as [|p ps IH]; cbn.
  - split; [|reflexivity]. intros _ (q & r & [] & _).
  - destruct (strip_prefix p s) as [r'|] eqn:E.
    + split; [discriminate|]. intros H. exfalso. apply H.
      exists p, r'. split; [left; reflexivity|].
      apply strip_prefix_Some. exact E.
    + rewrite IH. split.
      * intros H (q & r & [Hq|Hq] & Hs).
        -- subst q. apply strip_prefix_Some in Hs. congruence.
        -- apply H. exists q, r. auto.
      * intros H (q & r & Hq & Hs). apply H. exists q, r.
        split; [right; exact Hq|exact Hs].
Qed.

Lemma run_of_app (ps : list (list ascii)) (a b : list ascii) :
  run_of ps a -> run_of ps b -> run_of ps (a ++ b).
Proof.
  intros Ha Hb. induction Ha as [|p s Hp Hs IH]; [exact Hb|].
  rewrite <- app_assoc. constructor; assumption.
Qed.

Lemma run_of_rev (ps : list (list ascii)) (l : list ascii) :
  run_of (map (@rev ascii) ps) l -> run_of ps (rev l).
Proof.
  intros H. induction H as [|p s Hp Hs IH]; [constructor|].
  rewrite rev_app_distr. apply run_of_app; [exact IH|].
  apply in_map_iff in Hp. destruct Hp as (q & Hq & Hin). subst p.
  rewrite rev_involutive. rewrite <- (app_nil_r q).
  constructor; [exact Hin|constructor].
Qed.

(** What is trimmed on the left is a run of the runes. *)
Lemma trim_left_n_split (ps : list (list ascii)) (n : nat) (s : list ascii) :
  exists l, s = l ++ trim_left_n ps n s /\ run_of ps l.
Proof.
  revert s. induction n as [|n IH]; intros s; cbn.
  - exists []. split; [reflexivity|constructor].
  - destruct (strip_any ps s) as [r|] eqn:E.
    + destruct (strip_any_Some ps s r E) as (p & Hp & Hs).
      destruct (IH r) as (l & Hl & Hrun).
      exists (p ++ l). split; [|constructor; assumption].
      rewrite <- app_assoc, <- Hl. exact Hs.
    + exists []. split; [reflexivity|constructor].
Qed.

(** Trimming on the left goes on until no rune is left in front. *)
Lemma trim_left_n_done (ps : list (list ascii)) (n : nat) (s : list ascii) :
  (forall p, In p ps -> p <> []) -> length s <= n ->
  strip_any ps (trim_left_n ps n s) = None.
Proof.
  intros Hne. revert s. induction n as [|n IH]; intros s Hlen; cbn.
  - destruct s; [|cbn in Hlen; lia].
    apply strip_any_None. intros (p & r & Hp & Hs).
    symmetry in Hs. apply app_eq_nil in Hs. destruct Hs as [Hs _].
    exact (Hne p Hp Hs).
  - destruct (strip_any ps s) as [r|] eqn:E; [|exact E].
    destruct (strip_any_Some ps s r E) as (p & Hp & Hs).
    apply IH. subst s. rewrite length_app in Hlen.
    specialize (Hne p Hp). destruct p; [congruence|]. cbn in Hlen. lia.
Qed.

Lemma space_runes_nonempty (p : list ascii) : In p space_runes -> p <> [].
Proof.
  intros H E. subst p. revert H. unfold space_runes. cbn.
  intuition discriminate.
Qed.

Lemma rev_space_runes_nonempty (p : list ascii) :
  In p (map (@rev ascii) space_runes) -> p <> [].
Proof.
  intros H E. apply in_map_iff in H. destruct H as (q & Hq & Hin). subst p.
  apply (space_runes_nonempty q Hin).
  rewrite <- (rev_involutive q), E. reflexivity.
Qed.

(** [TrimSpace] drops a run of space runes at each end, and what it
    returns neither starts nor ends with a space rune. *)
Lemma TrimSpace_trims (s : string) :
  (exists l r,
      list_ascii_of_string s = l ++ list_ascii_of_string (TrimSpace s) ++ r /\
      run_of space_runes l /\ run_of space_runes r) /\
  ~ starts_with space_runes (list_ascii_of_string (TrimSpace s)) /\
  ~ ends_with space_runes (list_ascii_of_string (TrimSpace s)).
Proof.
  unfold TrimSpace. rewrite list_ascii_of_string_of_list_ascii.
  set (s0 := list_ascii_of_string s).
  set (a := trim_left space_runes s0).
  destruct (trim_left_n_split space_runes (length s0) s0) as (l & Hl & Hrl).
  fold (trim_left space_runes s0) in Hl. fold a in Hl.
  destruct (trim_left_n_split (map (@rev ascii) space_runes)
              (length (rev a)) (rev a)) as (r' & Hr & Hrr).
  fold (trim_left (map (@rev ascii) space_runes) (rev a)) in Hr.
  assert (Ha : a = trim_right space_runes a ++ rev r').
  { unfold trim_right. rewrite <- rev_app_distr, <- Hr, rev_involutive.
    reflexivity. }
  split; [|split].
  - exists l, (rev r'). split; [|split; [exact Hrl|]].
    + rewrite <- Ha. exact Hl.
    + apply run_of_rev. exact Hrr.
  - intros (p & x & Hp & Hx).
    assert (Hnone : strip_any space_runes a = None).
    { apply trim_left_n_done; [exact space_runes_nonempty|lia]. }
    apply strip_any_None in Hnone. apply Hnone.
    exists p, (x ++ rev r'). split; [exact Hp|].
    rewrite Ha at 1. rewrite Hx, <- app_assoc. reflexivity.
  - intros (p & x & Hp & Hx).
    assert (Hnone : strip_any (map (@rev ascii) space_runes)
                      (rev (trim_right space_runes a)) = None).
    { unfold trim_right. rewrite rev_involutive.
      apply trim_left_n_done; [exact rev_space_runes_nonempty|lia]. }
    apply strip_any_None in Hnone. apply Hnone.
    exists (rev p), (rev x). split; [apply in_map; exact Hp|].
    rewrite Hx, rev_app_distr. reflexivity.
Qed.

(** ** The three lookups *)

(** C5. When the GET succeeds, the string returned is the body with the
    space runes at both ends trimmed off; a read that ended with
    [io.EOF], like a read that ended without error, gives that string
    with a nil error, and any other read error is returned with it. *)
Theorem GetExternalIp_body (env : Env) (self : DynDNSService) (t : Trace)
  (resp : Response) :
  env_Get env t (external_ip_url self) = Ok resp ->
  let body := fst (Body resp) in
  let out := fst (GetExternalIp env self t) in
  fst out = TrimSpace body /\
  (exists l r,
      list_ascii_of_string body = l ++ list_ascii_of_string (fst out) ++ r /\
      run_of space_runes l /\ run_of space_runes r) /\
  ~ starts_with space_runes (list_ascii_of_string (fst out)) /\
  ~ ends_with space_runes (list_ascii_of_string (fst out)) /\
  (snd (Body resp) = None -> snd out = None) /\
  (snd (Body resp) = Some io_EOF -> snd out = None) /\
  (forall e, snd (Body resp) = Some e -> e <> io_EOF -> snd out = Some e).
Proof.
  intros Hget body out.
  assert (Hout : out = (TrimSpace body,
                        match snd (Body resp) with
                        | Some e => if is_EOF e then None else Some e
                        | None => None
                        end)).
  { unfold out. rewrite GetExternalIp_run, Hget. reflexivity. }
  rewrite Hout. cbn [fst snd].
  destruct (TrimSpace_trims body) as (Hsplit & Hl & Hr).
  split; [reflexivity|]. split; [exact Hsplit|]. split; [exact Hl|].
  split; [exact Hr|]. split; [|split].
  - intros E. rewrite E. reflexivity.
  - intros E. rewrite E. reflexivity.
  - intros e E Hne. rewrite E. destruct e; [contradiction|reflexivity].
Qed.

Lemma GetExternalIp_body_witness :
  fst (GetExternalIp (example_env_read io_EOF) example_service [])
  = ("203.0.113.9", None) /\
  fst (GetExternalIp
         (example_env_read (errors_New "connection reset by peer"))
         example_service [])
  = ("203.0.113.9", Some (errors_New "connection reset by peer")).
Proof.
  pose proof (GetExternalIp_body (example_env_read io_EOF) example_service []
                _ eq_refl) as (H1 & _ & _ & _ & _ & H2 & _).
  pose proof (GetExternalIp_body
                (example_env_read (errors_New "connection reset by peer"))
                example_service [] _ eq_refl) as (H3 & _ & _ & _ & _ & _ & H4).
  cbv zeta in *. split.
  - rewrite (surjective_pairing (fst (GetExternalIp _ _ _))).
    rewrite H1, (H2 eq_refl). reflexivity.
  - rewrite (surjective_pairing (fst (GetExternalIp _ _ _))).
    rewrite H3, (H4 _ eq_refl); [reflexivity|discriminate].
Defined.

(** C10. When the GET itself fails, the error is returned together with
    the text ["Unable to determine external IP: %v "], which is not empty
    and is not written with the characters of an IP address. *)
Theorem GetExternalIp_transport_failure (env : Env) (self : DynDNSService)
  (t : Trace) (err : error) :
  env_Get env t (external_ip_url self) = Fail err ->
  GetExternalIp env self t
  = (("Unable to determine external IP: %v ", Some err),
     t ++ [EvHttpGet (external_ip_url self)]) /\
  String.eqb (fst (fst (GetExternalIp env self t))) "" = false /\
  ip_address_chars (fst (fst (GetExternalIp env self t))) = false.
Proof.
  intros Hget. rewrite GetExternalIp_run, Hget. cbn [fst].
  split; [reflexivity|]. split; reflexivity.
Qed.

Lemma GetExternalIp_transport_failure_witness :
  GetExternalIp failing_env example_service []
  = (("Unable to determine external IP: %v ",
      Some (errors_New "dial tcp: i/o timeout")),
     [EvHttpGet "https://domains.google.com/checkip"]).
Proof.
  exact (proj1 (GetExternalIp_transport_failure failing_env example_service []
                  _ eq_refl)).
Defined.

(** C9. A resolution that succeeds gives the resolver's list as it is; a
    resolution that fails gives a nil list and the resolver's error, after
    the one lookup. *)
Theorem GetCurrentDDNSIp_result (env : Env) (self : DynDNSService)
  (fqdn : string) (t : Trace) :
  (forall ips,
      env_LookupHost env t (dns_server self) fqdn = (ips, None) ->
      GetCurrentDDNSIp env self fqdn t
      = ((ips, None), t ++ [EvLookupHost (dns_server self) fqdn])) /\
  (forall ips e,
      env_LookupHost env t (dns_server self) fqdn = (ips, Some e) ->
      GetCurrentDDNSIp env self fqdn t
      = ((None, Some e), t ++ [EvLookupHost (dns_server self) fqdn])).
Proof.
  split; intros; rewrite GetCurrentDDNSIp_run; rewrite H; reflexivity.
Qed.

Lemma GetCurrentDDNSIp_result_witness :
  GetCurrentDDNSIp
    (example_env_lookup
       (Some ["203.0.113.7"; "203.0.113.5"; "203.0.113.7"], None))
    example_service "vr.example.com" []
  = ((Some ["203.0.113.7"; "203.0.113.5"; "203.0.113.7"], None),
     [EvLookupHost "8.8.8.8:53" "vr.example.com"]) /\
  GetCurrentDDNSIp
    (example_env_lookup
       (Some ["203.0.113.7"], Some (errors_New "lookup: i/o timeout")))
    example_service "vr.example.com" []
  = ((None, Some (errors_New "lookup: i/o timeout")),
     [EvLookupHost "8.8.8.8:53" "vr.example.com"]).
Proof.
  split.
  - exact (proj1 (GetCurrentDDNSIp_result
                    (example_env_lookup
                       (Some ["203.0.113.7"; "203.0.113.5"; "203.0.113.7"], None))
                    example_service "vr.example.com" [])
             _ eq_refl).
  - exact (proj2 (GetCurrentDDNSIp_result
                    (example_env_lookup
                       (Some ["203.0.113.7"],
                        Some (errors_New "lookup: i/o timeout")))
                    example_service "vr.example.com" [])
             _ _ eq_refl).
Defined.

(** C6. [UpdateDDNSRecord] returns an error exactly when the request
    cannot be built, the transport fails, or the read of the body ends with
    an error, and then it is that error; once the body is read it returns
    nil, whatever the status code. *)
Theorem UpdateDDNSRecord_error_iff (env : Env) (cfg : Config)
  (url user pw : string) (t : Trace) :
  let req := {| Method := "GET"; URL := url;
                Header := [("User-Agent", "")];
                BasicAuth := Some (user, pw) |} in
  let t1 := t ++ [EvNewRequest "GET" url] in
  let out := fst (UpdateDDNSRecord env cfg url user pw t) in
  (forall e,
      out = Some e <->
      env_NewRequest env "GET" url = Some e \/
      (env_NewRequest env "GET" url = None /\ env_Do env t1 req = Fail e) \/
      (env_NewRequest env "GET" url = None /\
       exists resp, env_Do env t1 req = Ok resp /\ snd (Body resp) = Some e)) /\
  (forall code body,
      env_NewRequest env "GET" url = None ->
      env_Do env t1 req = Ok {| StatusCode := code; Body := (body, None) |} ->
      out = None).
Proof.
  cbv zeta. rewrite UpdateDDNSRecord_run. cbv zeta. split.
  - intros e. destruct (env_NewRequest env "GET" url) as [e0|].
    + cbn. split.
      * intros H. left. exact H.
      * intros [H|[[H _]|[H _]]]; [exact H|discriminate|discriminate].
    + destruct (env_Do env _ _) as [resp|e1].
      * destruct (snd (Body resp)) as [e2|] eqn:E; cbn; split.
        -- intros H. right. right. split; [reflexivity|]. exists resp.
           split; [reflexivity|]. congruence.
        -- intros [H|[[_ H]|[_ (r & H & H')]]]; [discriminate|discriminate|].
           inversion H; subst r. congruence.
        -- discriminate.
        -- intros [H|[[_ H]|[_ (r & H & H')]]]; [discriminate|discriminate|].
           inversion H; subst r. congruence.
      * cbn. split.
        -- intros H. right. left. split; [reflexivity|]. congruence.
        -- intros [H|[[_ H]|[_ (r & H & _)]]]; [discriminate|congruence|discriminate].
  - intros code body Hnew Hdo. rewrite Hnew, Hdo. reflexivity.
Qed.

Lemma UpdateDDNSRecord_error_iff_witness :
  fst (UpdateDDNSRecord example_env_rejected (example_config "user" "secret" 0)
         "https://domains.google.com/nic/update?hostname=vr.example.com&myip=203.0.113.9"
         "user" "secret" [])
  = None.
Proof.
  exact (proj2 (UpdateDDNSRecord_error_iff example_env_rejected
                  (example_config "user" "secret" 0)
                  "https://domains.google.com/nic/update?hostname=vr.example.com&myip=203.0.113.9"
                  "user" "secret" [])
           401%Z "badauth" eq_refl eq_refl).
Defined.

(** ** Running the model *)

Example TrimSpace_newline :
  TrimSpace ("203.0.113.9" +s+ LF) = "203.0.113.9".
Proof. vm_compute. reflexivity. Qed.

(** A no-break space (C2 A0) in front and a thin space (E2 80 8A) and a
    line feed behind are trimmed; the space inside and the truncated
    sequence E2 80 at the very end are kept, so nothing before it is
    trimmed either. *)
Example TrimSpace_unicode :
  TrimSpace (string_of_list_ascii
               (bytes [32; 194; 160; 65; 32; 66; 226; 128; 138; 10]))
  = "A B" /\
  TrimSpace (string_of_list_ascii (bytes [65; 10; 226; 128]))
  = string_of_list_ascii (bytes [65; 10; 226; 128]).
Proof. split; vm_compute; reflexivity. Qed.

Example Sprintf_operands :
  Sprintf "a=%v b=%v" ["x"; "y"] = "a=x b=y" /\
  Sprintf "a=%v b=%v" ["x"] = "a=x b=%!v(MISSING)" /\
  Sprintf "a=%v" ["x"; "y"] = "a=x%!(EXTRA string=y)".
Proof. repeat split. Qed.

(** Beyond 9223372036 seconds the product with [time.Second] no longer
    fits 64 bits and wraps. *)
Example update_wait_wraps :
  update_wait {| DdnsUsername := "user"; DdnsPassword := "secret";
                 Frequency := 9223372037; DnsServer := ""; CheckipUrl := "" |}
  = (-9223372036709551616)%Z.
Proof. vm_compute. reflexivity. Qed.

(** The whole service against the provider: the first check sends the
    update, the check after the first wait finds the record up to date,
    and the cancellation ends the goroutine. *)
Example service_run :
  service example_env_provider (example_config "user" "secret" 0)
    [TimerFired; CtxDone] []
  = (None, Some Returned,
     [EvWaitGroupAdd 1;
      EvLog Info
        "<green>Starting</> the DynDNS service: Updating hostname %v with checkip URL %v"
        [AString "vr.example.com";
         AString "https://domains.google.com/checkip"];
      checking example_service;
      EvHttpGet "https://domains.google.com/checkip"; EvBodyClose;
      EvLookupHost "8.8.8.8:53" "vr.example.com";
      EvLog Info "DNS UPDATE REQUIRED. External IP=%v. %v=%v."
        [AString "203.0.113.9"; AString "vr.example.com";
         AStrings (Some ["203.0.113.5"])];
      EvLog Debug "Submitting update request to %v"
        [AString "https://domains.google.com/nic/update?hostname=vr.example.com&myip=203.0.113.9"];
      EvNewRequest "GET"
        "https://domains.google.com/nic/update?hostname=vr.example.com&myip=203.0.113.9";
      EvClientDo
        {| Method := "GET";
           URL := "https://domains.google.com/nic/update?hostname=vr.example.com&myip=203.0.113.9";
           Header := [("User-Agent", "")];
           BasicAuth := Some ("user", "secret") |};
      EvLog Debug "Update response: %v" [AString "good 203.0.113.9"];
      EvBodyClose;
      EvSelect (60 * time_Second) TimerFired;
      checking example_service;
      EvHttpGet "https://domains.google.com/checkip"; EvBodyClose;
      EvLookupHost "8.8.8.8:53" "vr.example.com";
      EvSelect (60 * time_Second) CtxDone;
      EvWaitGroupDone]).
Proof. vm_compute. reflexivity. Qed.

(** * Further properties of the package *)

(** The eight ways a check can go, each with its trace. *)
Ltac split_body :=
  lazymatch goal with
  | |- context [match snd (Body ?r) with _ => _ end] =>
      destruct (snd (Body r)) as [?e|]
  end.

Ltac split_update env :=
  cbv zeta; rewrite UpdateDDNSRecord_run; cbv zeta;
  destruct (env_NewRequest env "GET" _) as [?e|];
  [ | destruct (env_Do env _ _) as [?resp|?e]; [ split_body | ] ].

Ltac split_lookup env self fe :=
  rewrite GetCurrentDDNSIp_run;
  destruct (env_LookupHost env _ (dns_server self) (Hostname fe))
    as [?ips [?e|]];
  [ | lazymatch goal with
      | |- context [ip_published ?l ?ip] =>
          destruct (ip_published l ip); [ | split_update env ]
      end ].

Ltac check_cases env self cfg fe dd t Hfe Hdd :=
  rewrite (updateIP_run env self cfg fe dd t Hfe Hdd);
  rewrite GetExternalIp_run;
  destruct (env_Get env (t ++ [checking self]) (external_ip_url self))
    as [?resp|?err];
  [ split_body;
    [ lazymatch goal with
      | |- context [is_EOF ?e] =>
          destruct (is_EOF e); [ split_lookup env self fe | ]
      end
    | split_lookup env self fe ]
  | ];
  norm_trace.

Lemma updateIP_appends (env : Env) (self : DynDNSService) (cfg : Config)
  (t : Trace) :
  exists delta, updateIP env self cfg t = (tt, t ++ delta).
Proof.
  destruct (Frontend cfg) as [fe|] eqn:Hfe.
  1: destruct (DynDns fe) as [dd|] eqn:Hdd.
  1: check_cases env self cfg fe dd t Hfe Hdd; eexists; reflexivity.
  all: exists []; unfold updateIP; rewrite Hfe; try rewrite Hdd;
    rewrite app_nil_r; reflexivity.
Qed.

(** ** What one check may call, and in which order *)

(** X1. A check calls the network in a fixed order and never twice: first
    the check-IP URL, then the resolver, then the update URL for the
    address just discovered; it stops after any of them, and it always
    makes the first call. *)
Theorem updateIP_call_order (env : Env) (self : DynDNSService) (cfg : Config)
  (fe : FrontendConfig) (dd : DynDNSConfig) (t : Trace) :
  Frontend cfg = Some fe -> DynDns fe = Some dd ->
  let ip := fst (fst (GetExternalIp env self (t ++ [checking self]))) in
  exists delta k,
    updateIP env self cfg t = (tt, t ++ delta) /\
    1 <= k /\
    network_calls delta
    = firstn k [EvHttpGet (external_ip_url self);
                EvLookupHost (dns_server self) (Hostname fe);
                EvClientDo (update_request fe dd ip)].
Proof.
  intros Hfe Hdd. cbv zeta.
  check_cases env self cfg fe dd t Hfe Hdd.
  all: eexists;
    first [ exists 1; split; [reflexivity|]; split; [lia|reflexivity]
          | exists 2; split; [reflexivity|]; split; [lia|reflexivity]
          | exists 3; split; [reflexivity|]; split; [lia|reflexivity] ].
Qed.

Lemma updateIP_call_order_witness :
  exists delta k,
    updateIP (example_env_read (errors_New "connection reset by peer"))
      example_service (example_config "user" "secret" 0) []
    = (tt, [] ++ delta) /\
    1 <= k /\
    network_calls delta
    = firstn k [EvHttpGet "https://domains.google.com/checkip";
                EvLookupHost "8.8.8.8:53" "vr.example.com";
                EvClientDo
                  (update_request
                     {| Hostname := "vr.example.com"; DynDns := None |}
                     {| DdnsUsername := "user"; DdnsPassword := "secret";
                        Frequency := 0; DnsServer := ""; CheckipUrl := "" |}
                     "203.0.113.9")].
Proof.
  exact (updateIP_call_order
           (example_env_read (errors_New "connection reset by peer"))
           example_service (example_config "user" "secret" 0) _ _ []
           eq_refl eq_refl).
Defined.

(** ** Invariants of the loop *)

Section Invariants.

Variable env : Env.
Variable self : DynDNSService.
Variable cfg : Config.
Variable fe : FrontendConfig.
Variable dd : DynDNSConfig.
Hypothesis Hfe : Frontend cfg = Some fe.
Hypothesis Hdd : DynDns fe = Some dd.

(** What holds before a [select] and is kept by a cancellation and by a
    timer wake-up with its check holds wherever the loop stands. *)
Lemma loop_invariant (P : Trace -> Prop) (d : Z) :
  (forall u, P u -> P (snd (updateIP env self cfg (u ++ [EvSelect d TimerFired])))) ->
  (forall u, P u -> P (u ++ [EvSelect d CtxDone])) ->
  forall sched t, P t -> P (snd (loop env self cfg d sched t)).
Proof.
  intros Htick Hdone sched.
  induction sched as [|w sched IH]; intros t Ht; cbn [loop].
  - exact Ht.
  - destruct w; cbn [snd].
    + apply Hdone. exact Ht.
    + apply IH. apply Htick. exact Ht.
Qed.

Lemma Start_invariant (P : Trace -> Prop) (sched : list Wake) (t : Trace) :
  P (snd (updateIP env self cfg (t ++ [starting self fe]))) ->
  (forall u d, P u -> P (snd (updateIP env self cfg (u ++ [EvSelect d TimerFired])))) ->
  (forall u d, P u -> P (u ++ [EvSelect d CtxDone])) ->
  P (snd (Start env self cfg sched t)).
Proof.
  intros H0 Htick Hdone. rewrite (Start_unfold env self cfg fe dd Hfe Hdd).
  apply loop_invariant; auto.
Qed.

Lemma updateIP_expected (t : Trace) :
  Forall (expected_call self fe dd) t ->
  Forall (expected_call self fe dd) (snd (updateIP env self cfg t)).
Proof.
  intros Ht. check_cases env self cfg fe dd t Hfe Hdd.
  all: cbn [snd]; apply Forall_app; split; [exact Ht|];
    repeat constructor; cbn; auto; eexists; reflexivity.
Qed.

End Invariants.

Lemma Forall_snoc {A : Type} (P : A -> Prop) (l : list A) (a : A) :
  Forall P l -> P a -> Forall P (l ++ [a]).
Proof.
  intros Hl Ha. apply Forall_app. split; [exact Hl|]. constructor; auto.
Qed.

(** X2. Whatever the environment answers and however long the loop runs,
    [Start] contacts nothing but the check-IP URL of the service, the DNS
    server of the service about the configured hostname, and the update
    URL of the provider for that hostname; the credentials travel only in
    those update requests. *)
Theorem Start_expected_calls (env : Env) (self : DynDNSService) (cfg : Config)
  (fe : FrontendConfig) (dd : DynDNSConfig) (sched : list Wake) (t : Trace) :
  Frontend cfg = Some fe -> DynDns fe = Some dd ->
  Forall (expected_call self fe dd) t ->
  Forall (expected_call self fe dd) (snd (Start env self cfg sched t)).
Proof.
  intros Hfe Hdd Ht.
  apply (Start_invariant env self cfg fe dd Hfe Hdd
           (Forall (expected_call self fe dd))).
  - apply (updateIP_expected env self cfg fe dd Hfe Hdd).
    apply Forall_snoc; [exact Ht|exact I].
  - intros u d Hu. apply (updateIP_expected env self cfg fe dd Hfe Hdd).
    apply Forall_snoc; [exact Hu|exact I].
  - intros u d Hu. apply Forall_snoc; [exact Hu|exact I].
Qed.

Lemma Start_expected_calls_witness :
  Forall (expected_call example_service
            {| Hostname := "vr.example.com";
               DynDns := Some {| DdnsUsername := "user";
                                 DdnsPassword := "secret"; Frequency := 0;
                                 DnsServer := ""; CheckipUrl := "" |} |}
            {| DdnsUsername := "user"; DdnsPassword := "secret";
               Frequency := 0; DnsServer := ""; CheckipUrl := "" |})
    (snd (Start example_env_provider example_service
            (example_config "user" "secret" 0)
            [TimerFired; TimerFired; CtxDone] [])).
Proof.
  apply (Start_expected_calls example_env_provider example_service
           (example_config "user" "secret" 0) _ _
           [TimerFired; TimerFired; CtxDone] [] eq_refl eq_refl).
  constructor.
Defined.

(** ** How often the service calls out *)


Lemma closes_app (t1 t2 : Trace) : closes (t1 ++ t2) = closes t1 + closes t2.
Proof. unfold closes. rewrite filter_app, length_app. reflexivity. Qed.

Lemma requests_sent_app (t1 t2 : Trace) :
  requests_sent (t1 ++ t2) = requests_sent t1 ++ requests_sent t2.
Proof. unfold requests_sent. apply flat_map_app. Qed.

Lemma requests_built_app (t1 t2 : Trace) :
  requests_built (t1 ++ t2) = requests_built t1 ++ requests_built t2.
Proof. unfold requests_built. apply flat_map_app. Qed.




(** ** A record that is up to date *)

Lemma GetExternalIp_requests (env : Env) (self : DynDNSService) (t : Trace) :
  requests_built (snd (GetExternalIp env self t)) = requests_built t /\
  requests_sent (snd (GetExternalIp env self t)) = requests_sent t.
Proof.
  rewrite GetExternalIp_run.
  destruct (env_Get env t (external_ip_url self)); cbn [snd];
    rewrite requests_built_app, requests_sent_app; cbn;
    rewrite !app_nil_r; auto.
Qed.

Lemma GetCurrentDDNSIp_requests (env : Env) (self : DynDNSService)
  (fqdn : string) (t : Trace) :
  requests_built (snd (GetCurrentDDNSIp env self fqdn t)) = requests_built t /\
  requests_sent (snd (GetCurrentDDNSIp env self fqdn t)) = requests_sent t.
Proof.
  rewrite GetCurrentDDNSIp_run. cbn [snd].
  rewrite requests_built_app, requests_sent_app; cbn.
  rewrite !app_nil_r; auto.
Qed.

(** A check in which the address discovered is among those resolved leaves
    the requests as they were. *)
Lemma updateIP_steady (env : Env) (self : DynDNSService) (cfg : Config)
  (fe : FrontendConfig) (dd : DynDNSConfig) (ip : string) (t : Trace) :
  Frontend cfg = Some fe -> DynDns fe = Some dd ->
  (forall u, fst (GetExternalIp env self u) = (ip, None)) ->
  (forall u, exists ips,
      fst (GetCurrentDDNSIp env self (Hostname fe) u) = (ips, None) /\
      In ip (range ips)) ->
  requests_built (snd (updateIP env self cfg t)) = requests_built t /\
  requests_sent (snd (updateIP env self cfg t)) = requests_sent t.
Proof.
  intros Hfe Hdd Hip Hips.
  rewrite (updateIP_run env self cfg fe dd t Hfe Hdd).
  pose proof (Hip (t ++ [checking self])) as H1.
  destruct (GetExternalIp_requests env self (t ++ [checking self])) as [Hb Hs].
  destruct (GetExternalIp env self (t ++ [checking self])) as [r t2].
  cbn [fst snd] in *. subst r.
  destruct (Hips t2) as (ips & H2 & Hin).
  destruct (GetCurrentDDNSIp_requests env self (Hostname fe) t2) as [Hb' Hs'].
  destruct (GetCurrentDDNSIp env self (Hostname fe) t2) as [r' t3].
  cbn [fst snd] in *. subst r'.
  apply ip_published_In in Hin. rewrite Hin. cbn [snd].
  rewrite Hb', Hs', Hb, Hs, requests_built_app, requests_sent_app. cbn.
  rewrite !app_nil_r. auto.
Qed.

(** X4. As long as the discovery keeps returning one address and the
    resolver keeps listing it, the service builds and sends no update
    request, for any number of wake-ups. *)
Theorem Start_steady_state (env : Env) (self : DynDNSService) (cfg : Config)
  (fe : FrontendConfig) (dd : DynDNSConfig) (ip : string)
  (sched : list Wake) (t : Trace) :
  Frontend cfg = Some fe -> DynDns fe = Some dd ->
  (forall u, fst (GetExternalIp env self u) = (ip, None)) ->
  (forall u, exists ips,
      fst (GetCurrentDDNSIp env self (Hostname fe) u) = (ips, None) /\
      In ip (range ips)) ->
  requests_built (snd (Start env self cfg sched t)) = requests_built t /\
  requests_sent (snd (Start env self cfg sched t)) = requests_sent t.
Proof.
  intros Hfe Hdd Hip Hips.
  apply (Start_invariant env self cfg fe dd Hfe Hdd
           (fun u => requests_built u = requests_built t /\
                     requests_sent u = requests_sent t)).
  - destruct (updateIP_steady env self cfg fe dd ip (t ++ [starting self fe])
                Hfe Hdd Hip Hips) as [Hb Hs].
    rewrite Hb, Hs, requests_built_app, requests_sent_app. cbn.
    rewrite !app_nil_r. auto.
  - intros u d [Hu1 Hu2].
    destruct (updateIP_steady env self cfg fe dd ip
                (u ++ [EvSelect d TimerFired]) Hfe Hdd Hip Hips) as [Hb Hs].
    rewrite Hb, Hs, requests_built_app, requests_sent_app. cbn.
    rewrite !app_nil_r. auto.
  - intros u d [Hu1 Hu2].
    rewrite requests_built_app, requests_sent_app. cbn.
    rewrite !app_nil_r. auto.
Qed.

Lemma Start_steady_state_witness :
  requests_built
    (snd (Start example_env_published example_service
            (example_config "user" "secret" 0)
            [TimerFired; TimerFired; TimerFired] []))
  = [] /\
  requests_sent
    (snd (Start example_env_published example_service
            (example_config "user" "secret" 0)
            [TimerFired; TimerFired; TimerFired] []))
  = [].
Proof.
  apply (Start_steady_state example_env_published example_service
           (example_config "user" "secret" 0) _ _ "203.0.113.9"
           [TimerFired; TimerFired; TimerFired] [] eq_refl eq_refl).
  - intros u. vm_compute. reflexivity.
  - intros u. exists (Some ["203.0.113.5"; "203.0.113.9"]).
    split; [reflexivity|]. simpl. auto.
Defined.

(** ** Starting the service *)

(** X5. With a frontend section, a DynDns section, a username and a
    hostname, [StartDynDNSService] registers with the WaitGroup, spawns the
    goroutine and returns nil.  The service it spawns holds the
    configuration, checks the configured URL and dials the configured DNS
    server over UDP whatever network and address the resolver asks for;
    where the configuration leaves them empty it uses
    [https://domains.google.com/checkip] and [8.8.8.8:53], so neither is
    ever empty. *)
Theorem StartDynDNSService_starts (cfg : Config) (fe : FrontendConfig)
  (dd : DynDNSConfig) (t : Trace) :
  Frontend cfg = Some fe -> DynDns fe = Some dd ->
  DdnsUsername dd <> "" -> Hostname fe <> "" ->
  exists svc,
    StartDynDNSService cfg t = ((None, Some svc), t ++ [EvWaitGroupAdd 1]) /\
    config_obj svc = cfg /\
    external_ip_url svc
    = (if String.eqb (CheckipUrl dd) ""
       then "https://domains.google.com/checkip" else CheckipUrl dd) /\
    external_ip_url svc <> "" /\
    dns_server svc <> "" /\
    forall network address,
      GoogleDNSDialer svc network address
      = ("udp", if String.eqb (DnsServer dd) ""
                then "8.8.8.8:53" else DnsServer dd).
Proof.
  intros Hfe Hdd Huser Hhost.
  unfold StartDynDNSService. rewrite Hfe, Hdd.
  apply String.eqb_neq in Huser. apply String.eqb_neq in Hhost.
  rewrite Huser, Hhost. cbn [orb]. run. cbn [external_ip_url dns_server config_obj].
  destruct (String.eqb_spec (CheckipUrl dd) "") as [Eu|Nu];
    destruct (String.eqb_spec (DnsServer dd) "") as [Ed|Nd];
    cbn [external_ip_url dns_server config_obj];
    try rewrite (proj2 (String.eqb_eq _ _) Ed);
    try rewrite (proj2 (String.eqb_neq _ _) Nd);
    eexists; (split; [reflexivity|]); cbn; repeat split;
    solve [assumption | discriminate].
Qed.

Lemma StartDynDNSService_starts_witness :
  exists svc,
    StartDynDNSService
      {| Frontend := Some {|
           Hostname := "vr.example.com";
           DynDns := Some {| DdnsUsername := "user"; DdnsPassword := "secret";
                             Frequency := 300; DnsServer := "1.1.1.1:53";
                             CheckipUrl := "" |} |} |} []
    = ((None, Some svc), [] ++ [EvWaitGroupAdd 1]) /\
    external_ip_url svc = "https://domains.google.com/checkip" /\
    GoogleDNSDialer svc "tcp" "127.0.0.53:53" = ("udp", "1.1.1.1:53").
Proof.
  destruct (StartDynDNSService_starts
              {| Frontend := Some {|
                   Hostname := "vr.example.com";
                   DynDns := Some {| DdnsUsername := "user";
                                     DdnsPassword := "secret";
                                     Frequency := 300;
                                     DnsServer := "1.1.1.1:53";
                                     CheckipUrl := "" |} |} |}
              _ _ [] eq_refl eq_refl)
    as (svc & H1 & _ & H2 & _ & _ & H3); [discriminate|discriminate|].
  exists svc. split; [exact H1|]. split; [exact H2|].
  exact (H3 "tcp" "127.0.0.53:53").
Defined.

(** ** The WaitGroup *)

Lemma wg_counter_app (t1 t2 : Trace) :
  wg_counter (t1 ++ t2) = (wg_counter t1 + wg_counter t2)%Z.
Proof.
  induction t1 as [|e t1 IH]; [reflexivity|].
  destruct e; cbn; rewrite IH; lia.
Qed.

Lemma updateIP_wg (env : Env) (self : DynDNSService) (cfg : Config)
  (fe : FrontendConfig) (dd : DynDNSConfig) (t : Trace) :
  Frontend cfg = Some fe -> DynDns fe = Some dd ->
  wg_counter (snd (updateIP env self cfg t)) = wg_counter t.
Proof.
  intros Hfe Hdd. check_cases env self cfg fe dd t Hfe Hdd.
  all: cbn [snd]; rewrite wg_counter_app; cbn; lia.
Qed.

Lemma Start_wg (env : Env) (self : DynDNSService) (cfg : Config)
  (fe : FrontendConfig) (dd : DynDNSConfig) (sched : list Wake) (t : Trace) :
  Frontend cfg = Some fe -> DynDns fe = Some dd ->
  wg_counter (snd (Start env self cfg sched t)) = wg_counter t.
Proof.
  intros Hfe Hdd.
  apply (Start_invariant env self cfg fe dd Hfe Hdd
           (fun u => wg_counter u = wg_counter t)).
  - rewrite (updateIP_wg env self cfg fe dd _ Hfe Hdd), wg_counter_app.
    cbn. lia.
  - intros u d Hu.
    rewrite (updateIP_wg env self cfg fe dd _ Hfe Hdd), wg_counter_app.
    cbn. lia.
  - intros u d Hu. rewrite wg_counter_app. cbn. lia.
Qed.

(** X6. The service never returns an error.  When nothing is spawned the
    trace is untouched; while the goroutine waits in its loop the
    WaitGroup counter is one above its initial value; the goroutine ends
    exactly when a cancellation is among the wake-ups, its last act is
    [wg.Done()], and the counter is back at its initial value. *)
Theorem service_waitgroup (env : Env) (cfg : Config) (sched : list Wake)
  (t : Trace) :
  let r := service env cfg sched t in
  fst (fst r) = None /\
  (snd (fst r) = None -> snd r = t) /\
  (snd (fst r) = Some Waiting ->
   wg_counter (snd r) = (wg_counter t + 1)%Z /\ ~ In CtxDone sched) /\
  (snd (fst r) = Some Returned ->
   wg_counter (snd r) = wg_counter t /\ In CtxDone sched /\
   exists u, snd r = u ++ [EvWaitGroupDone]).
Proof.
  cbv zeta. unfold service, StartDynDNSService.
  destruct (Frontend cfg) as [fe|] eqn:Hfe.
  2:{ cbn. repeat split; try discriminate. }
  destruct (DynDns fe) as [dd|] eqn:Hdd.
  2:{ cbn. repeat split; try discriminate. }
  destruct (String.eqb (DdnsUsername dd) "" || String.eqb (Hostname fe) "")%bool.
  { cbn. repeat split; try discriminate. }
  run. unfold goroutine.
  match goal with
  | |- context [Start env ?svc cfg sched ?u] =>
      pose proof (Start_wg env svc cfg fe dd sched u Hfe Hdd) as Hwg;
      pose proof (Start_returns_iff env svc cfg fe dd Hfe Hdd sched u) as Hret;
      destruct (Start env svc cfg sched u) as [st t'] eqn:E
  end.
  cbn [fst snd] in Hwg, Hret. rewrite wg_counter_app in Hwg. cbn in Hwg.
  destruct st; cbn [fst snd].
  - split; [reflexivity|]. split; [discriminate|]. split; [discriminate|].
    intros _. rewrite wg_counter_app. cbn. split; [lia|].
    split; [apply Hret; reflexivity|]. exists t'. reflexivity.
  - split; [reflexivity|]. split; [discriminate|]. split; [|discriminate].
    intros _. split; [lia|]. intros Hin. apply Hret in Hin. discriminate.
Qed.

Lemma service_waitgroup_witness :
  wg_counter (snd (service example_env (example_config "user" "secret" 0)
                     [TimerFired] []))
  = 1%Z /\
  wg_counter (snd (service example_env (example_config "user" "secret" 0)
                     [TimerFired; CtxDone] []))
  = 0%Z.
Proof.
  split.
  - exact (proj1 (proj1 (proj2 (proj2
             (service_waitgroup example_env (example_config "user" "secret" 0)
                [TimerFired] []))) eq_refl)).
  - exact (proj1 (proj2 (proj2 (proj2
             (service_waitgroup example_env (example_config "user" "secret" 0)
                [TimerFired; CtxDone] []))) eq_refl)).
Defined.

(** ** A configuration without DynDns section *)

(** X7. Called with a configuration that has no frontend section, or no
    DynDns section in it, [updateIP] does nothing and [Start] returns at
    once, without a log entry, a check or a wait, whatever the wake-ups. *)
Theorem nil_config_noop (env : Env) (self : DynDNSService) (cfg : Config)
  (sched : list Wake) (t : Trace) :
  match Frontend cfg with
  | None => True
  | Some fe => DynDns fe = None
  end ->
  updateIP env self cfg t = (tt, t) /\
  Start env self cfg sched t = (Returned, t).
Proof.
  intros H. unfold updateIP, Start.
  destruct (Frontend cfg) as [fe|]; [rewrite H|]; split; reflexivity.
Qed.

Lemma nil_config_noop_witness :
  Start failing_env example_service
    {| Frontend := Some {| Hostname := "vr.example.com"; DynDns := None |} |}
    [TimerFired; TimerFired] []
  = (Returned, []).
Proof.
  exact (proj2 (nil_config_noop failing_env example_service
                  {| Frontend := Some {| Hostname := "vr.example.com";
                                         DynDns := None |} |}
                  [TimerFired; TimerFired] [] eq_refl)).
Defined.

(** ** Response bodies *)

(** X8. [GetExternalIp] and [UpdateDDNSRecord] close the body of every
    response they obtain, once, also when reading it fails, and close
    nothing when no response came. *)
Theorem bodies_closed (env : Env) (self : DynDNSService) (cfg : Config)
  (url user pw : string) (t : Trace) :
  closes (snd (GetExternalIp env self t))
  = closes t + match env_Get env t (external_ip_url self) with
               | Ok _ => 1
               | Fail _ => 0
               end /\
  closes (snd (UpdateDDNSRecord env cfg url user pw t))
  = closes t + match env_NewRequest env "GET" url with
               | Some _ => 0
               | None =>
                   match env_Do env (t ++ [EvNewRequest "GET" url])
                           {| Method := "GET"; URL := url;
                              Header := [("User-Agent", "")];
                              BasicAuth := Some (user, pw) |} with
                   | Ok _ => 1
                   | Fail _ => 0
                   end
               end.
Proof.
  split.
  - rewrite GetExternalIp_run.
    destruct (env_Get env t (external_ip_url self)); cbn [snd];
      rewrite closes_app; reflexivity.
  - rewrite UpdateDDNSRecord_run. cbv zeta.
    destruct (env_NewRequest env "GET" url).
    + cbn [snd]. rewrite closes_app. reflexivity.
    + destruct (env_Do env _ _) as [resp|e].
      * destruct (snd (Body resp)); cbn [snd]; rewrite closes_app; reflexivity.
      * cbn [snd]. rewrite closes_app. reflexivity.
Qed.

(** ** The range of the wait *)

Lemma int64_range (z : Z) : (- 2 ^ 63 <= int64 z < 2 ^ 63)%Z.
Proof.
  unfold int64.
  pose proof (Z.mod_pos_bound (z + 2 ^ 63) (2 ^ 64)) as H. lia.
Qed.

(** X9. The duration given to [time.After] is a signed 64-bit number of
    nanoseconds.  For a frequency from 0 to 9223372036 it lies between one
    second and 9223372036 seconds; for a frequency from 9223372037 to
    18446744073 the product has wrapped and the duration is negative. *)
Theorem update_wait_bounds (dd : DynDNSConfig) :
  (- 2 ^ 63 <= update_wait dd < 2 ^ 63)%Z /\
  (0 <= Frequency dd <= 9223372036 ->
   1 * time_Second <= update_wait dd <= 9223372036 * time_Second)%Z /\
  (9223372037 <= Frequency dd <= 18446744073 -> update_wait dd < 0)%Z.
Proof.
  split; [apply int64_range|]. split.
  - intros H. rewrite update_wait_seconds; unfold min_update_wait, time_Second;
      destruct (Z.eqb_spec (Frequency dd) 0); lia.
  - intros H. unfold update_wait, mul_int64, Duration, min_update_wait.
    destruct (Z.eqb_spec (Frequency dd) 0) as [E|N]; [lia|].
    unfold int64 at 2.
    rewrite (Z.mod_small (Frequency dd + 2 ^ 63)) by lia.
    replace (Frequency dd + 2 ^ 63 - 2 ^ 63)%Z with (Frequency dd) by lia.
    unfold int64, time_Second.
    replace ((Frequency dd * 1000000000 + 2 ^ 63) mod 2 ^ 64)%Z
      with (Frequency dd * 1000000000 + 2 ^ 63 - 2 ^ 64)%Z; [lia|].
    apply Z.mod_unique with (q := 1%Z); lia.
Qed.

Lemma update_wait_bounds_witness :
  (1 * time_Second
   <= update_wait {| DdnsUsername := "user"; DdnsPassword := "secret";
                     Frequency := 1; DnsServer := ""; CheckipUrl := "" |})%Z /\
  (update_wait {| DdnsUsername := "user"; DdnsPassword := "secret";
                  Frequency := 10000000000; DnsServer := "";
                  CheckipUrl := "" |} < 0)%Z.
Proof.
  split.
  - apply (proj1 (proj2 (update_wait_bounds _))). cbn. lia.
  - apply (proj2 (proj2 (update_wait_bounds _))). cbn. lia.
Defined.
